(** * WeatherChannel: forecast provider, frame renderer and batch driver

    A shallow embedding of [weather_api.py], [video_renderer.py] and
    [generate_weather.py].  Pure helpers are Rocq functions; code that
    touches the file system, the console, the clock, the network or the
    encoder threads an explicit [World] and returns a [result]. *)

From stdpp Require Import gmap strings list fin_maps pretty sorting.
From Stdlib Require Import Ascii ZArith Floats Lia.

Open Scope Z_scope.

(** ** Python runtime pieces used by the three modules *)

Module Py.

(** The exceptions the modelled code can meet; all of them derive from
    Python's [Exception]. *)
Inductive exn :=
  | KeyError (key : string)
  | ValueError (msg : string)
  | RequestException (msg : string)
  | JSONDecodeError (path : string)
  | FileExistsError (path : string)
  | FileNotFoundError (path : string)
  | NotADirectoryError (path : string)
  | IsADirectoryError (path : string)
  | IndexError (msg : string)
  | OverflowError (msg : string)
  | CalledProcessError (returncode : Z) (cmd : list string) (stderr : string).

Inductive result (A : Type) :=
  | Ok (a : A)
  | Raise (e : exn).
Arguments Ok {A} a.
Arguments Raise {A} e.

Definition is_ok {A} (r : result A) : bool :=
  match r with Ok _ => true | Raise _ => false end.

#[global] Instance result_ret : MRet result := fun A a => Ok a.

#[global] Instance result_bind : MBind result := fun A B k r =>
  match r with
  | Ok a => k a
  | Raise e => Raise e
  end.

(** [[f(x) for x in l]]: the first exception ends the comprehension. *)
Fixpoint result_map {A B} (f : A -> result B) (l : list A) : result (list B) :=
  match l with
  | [] => Ok []
  | a :: rest =>
      b ← f a;
      bs ← result_map f rest;
      Ok (b :: bs)
  end.

(** The characters [repr] of a [str] treats specially. *)
Definition apostrophe : ascii := ascii_of_N 39.
Definition double_quote : ascii := ascii_of_N 34.
Definition backslash : ascii := ascii_of_N 92.

(** The lower-case hexadecimal digit of [k < 16]. *)
Definition hex_lower (k : N) : ascii :=
  default "0"%char
    (String.list_ascii_of_string "0123456789abcdef" !! N.to_nat k).

(** One character of [repr(s)] inside the quotes [quote].  Strings are
    held as UTF-8; the bytes of a character beyond ASCII are kept, as
    [repr] keeps every printable character. *)
Definition repr_char (quote c : ascii) : string :=
  let n := N_of_ascii c in
  if Ascii.eqb c quote || Ascii.eqb c backslash then
    String backslash (String c EmptyString)
  else if (n =? 9)%N then String backslash "t"
  else if (n =? 10)%N then String backslash "n"
  else if (n =? 13)%N then String backslash "r"
  else if (n <? 32)%N || (n =? 127)%N then
    String backslash
      (String "x" (String (hex_lower (n / 16)) (String (hex_lower (n mod 16))
         EmptyString)))
  else String c EmptyString.

(** [repr(s)] for a [str]: double quotes are chosen when [s] holds an
    apostrophe and no double quote. *)
Definition repr (s : string) : string :=
  let chars := String.list_ascii_of_string s in
  let quote :=
    if existsb (Ascii.eqb apostrophe) chars
       && negb (existsb (Ascii.eqb double_quote) chars)
    then double_quote else apostrophe in
  String quote
    (foldr (fun c acc => repr_char quote c +:+ acc) (String quote EmptyString)
       chars).

(** [repr(l)] for a list of [str], which is also [str(l)]. *)
Definition repr_list (l : list string) : string :=
  "[" +:+ String.concat ", " (repr <$> l) +:+ "]".

(** [str(e)] as used in the f-strings that report an exception.
    [signal_name n] is the name of [signal.Signals(n)] on the machine,
    [None] where that call raises [ValueError]. *)
Definition exn_str (signal_name : Z -> option string) (e : exn) : string :=
  match e with
  | KeyError k => repr k
  | ValueError m => m
  | RequestException m => m
  | JSONDecodeError p => "Expecting value: line 1 column 1 (char 0)"
  | FileExistsError p => "[Errno 17] File exists: " +:+ repr p
  | FileNotFoundError p => "[Errno 2] No such file or directory: " +:+ repr p
  | NotADirectoryError p => "[Errno 20] Not a directory: " +:+ repr p
  | IsADirectoryError p => "[Errno 21] Is a directory: " +:+ repr p
  | IndexError m => m
  | OverflowError m => m
  | CalledProcessError rc cmd _ =>
      if rc <? 0 then
        match signal_name (- rc) with
        | Some name =>
            "Command '" +:+ repr_list cmd +:+ "' died with <Signals."
            +:+ name +:+ ": " +:+ pretty (- rc) +:+ ">."
        | None =>
            "Command '" +:+ repr_list cmd +:+ "' died with unknown signal "
            +:+ pretty (- rc) +:+ "."
        end
      else
        "Command '" +:+ repr_list cmd +:+ "' returned non-zero exit status "
        +:+ pretty rc +:+ "."
  end.

(** [range(n)] *)
Definition range (n : Z) : list Z := Z.of_nat <$> seq 0 (Z.to_nat n).

(** [enumerate(l)] *)
Definition enumerate {A} (l : list A) : list (Z * A) :=
  imap (fun i a => (Z.of_nat i, a)) l.

(** [s.upper()] on ASCII text. *)
Definition upper_ascii (c : ascii) : ascii :=
  let n := N_of_ascii c in
  if ((97 <=? n) && (n <=? 122))%N then ascii_of_N (n - 32) else c.

Fixpoint upper (s : string) : string :=
  match s with
  | EmptyString => EmptyString
  | String c r => String (upper_ascii c) (upper r)
  end.

(** [s.lstrip("#")] *)
Fixpoint lstrip_hash (s : string) : string :=
  match s with
  | String "#" r => lstrip_hash r
  | _ => s
  end.

(** Zero padding of a non-negative integer, as [{n:0wd}] and the
    fixed-width fields of [strftime] print it. *)
Fixpoint zeros (n : nat) : string :=
  match n with O => EmptyString | S k => "0" +:+ zeros k end.

Definition zfill (w : nat) (n : Z) : string :=
  let s := pretty n in zeros (w - String.length s) +:+ s.

(** *** Binary64 numbers *)

(** [float(z)] for an integer that a double holds exactly. *)
Definition float_of_Z (z : Z) : float :=
  if z <? 0 then PrimFloat.opp (PrimFloat.of_uint63 (Uint63.of_Z (- z)))
  else PrimFloat.of_uint63 (Uint63.of_Z z).

(** [int(f)]: truncation towards zero (of a finite number). *)
Definition int_of_float (f : float) : Z :=
  match Prim2SF f with
  | S754_finite s m e =>
      let a := if 0 <=? e then Z.pos m * 2 ^ e else Z.pos m / 2 ^ (- e) in
      if s then - a else a
  | _ => 0
  end.

(** [round(f)]: the nearest integer, a tie going to the even one. *)
Definition py_round (f : float) : result Z :=
  match Prim2SF f with
  | S754_zero _ => Ok 0
  | S754_finite s m e =>
      let a :=
        if 0 <=? e then Z.pos m * 2 ^ e
        else
          let d := 2 ^ (- e) in
          let q := Z.pos m / d in
          let r := Z.pos m mod d in
          if 2 * r <? d then q
          else if d <? 2 * r then q + 1
          else if Z.even q then q else q + 1 in
      Ok (if s then - a else a)
  | S754_infinity _ =>
      Raise (OverflowError "cannot convert float infinity to integer")
  | S754_nan => Raise (ValueError "cannot convert float NaN to integer")
  end.

(** [max(l)] and [min(l)] on floats: a later element replaces the
    current one only when it is strictly greater, or smaller. *)
Definition py_max (l : list float) : result float :=
  match l with
  | [] => Raise (ValueError "max() arg is an empty sequence")
  | x :: rest =>
      Ok (foldl (fun best y => if PrimFloat.ltb best y then y else best) x rest)
  end.

Definition py_min (l : list float) : result float :=
  match l with
  | [] => Raise (ValueError "min() arg is an empty sequence")
  | x :: rest =>
      Ok (foldl (fun best y => if PrimFloat.ltb y best then y else best) x rest)
  end.

(** [max(l, key=key)] *)
Definition py_max_by {A} (key : A -> nat) (l : list A) : result A :=
  match l with
  | [] => Raise (ValueError "max() arg is an empty sequence")
  | x :: rest =>
      Ok (foldl (fun best y => if (key best <? key y)%nat then y else best)
            x rest)
  end.

(** [l.count(x)] on strings. *)
Definition count (l : list string) (x : string) : nat :=
  length (filter (fun y => y = x) l).

(** *** [datetime] *)

Record datetime := {
  year : Z; month : Z; day : Z;
  hour : Z; minute : Z; second : Z; microsecond : Z
}.

Definition is_leap (y : Z) : bool :=
  (y mod 4 =? 0) && (negb (y mod 100 =? 0) || (y mod 400 =? 0)).

Definition days_in_month (y m : Z) : Z :=
  if m =? 2 then (if is_leap y then 29 else 28)
  else if (m =? 4) || (m =? 6) || (m =? 9) || (m =? 11) then 30
  else 31.

Definition days_before_year (y : Z) : Z :=
  let p := y - 1 in p * 365 + p / 4 - p / 100 + p / 400.

Definition days_before_month (y m : Z) : Z :=
  foldr Z.add 0 (days_in_month y <$> (Z.succ <$> range (m - 1))).

Definition toordinal (d : datetime) : Z :=
  days_before_year (year d) + days_before_month (year d) (month d) + day d.

(** [d.weekday()], Monday is 0. *)
Definition weekday (d : datetime) : Z := (toordinal d + 6) mod 7.

Definition valid_datetime (d : datetime) : Prop :=
  1 <= year d <= 9999 /\ 1 <= month d <= 12 /\
  1 <= day d <= days_in_month (year d) (month d) /\
  0 <= hour d < 24 /\ 0 <= minute d < 60 /\ 0 <= second d < 60 /\
  0 <= microsecond d < 1000000.

(** [d.replace(day=n)]: the day is checked against the month of [d];
    nothing carries over into the next month. *)
Definition replace_day (d : datetime) (n : Z) : result datetime :=
  if (1 <=? n) && (n <=? days_in_month (year d) (month d)) then
    Ok {| year := year d; month := month d; day := n;
          hour := hour d; minute := minute d; second := second d;
          microsecond := microsecond d |}
  else Raise (ValueError "day is out of range for month").

Definition day_abbr (wd : Z) : string :=
  nth (Z.to_nat wd) ["Mon"; "Tue"; "Wed"; "Thu"; "Fri"; "Sat"; "Sun"] EmptyString.

Definition month_abbr (m : Z) : string :=
  nth (Z.to_nat (m - 1))
    ["Jan"; "Feb"; "Mar"; "Apr"; "May"; "Jun";
     "Jul"; "Aug"; "Sep"; "Oct"; "Nov"; "Dec"] EmptyString.

(** [d.strftime("%a")] *)
Definition strftime_a (d : datetime) : string := day_abbr (weekday d).

(** [d.strftime("%I:%M:%S %p")] *)
Definition strftime_clock12 (d : datetime) : string :=
  let h12 := if hour d mod 12 =? 0 then 12 else hour d mod 12 in
  zfill 2 h12 +:+ ":" +:+ zfill 2 (minute d) +:+ ":" +:+ zfill 2 (second d)
    +:+ " " +:+ (if hour d <? 12 then "AM" else "PM").

(** [d.strftime("%a %b %d")] *)
Definition strftime_date (d : datetime) : string :=
  strftime_a d +:+ " " +:+ month_abbr (month d) +:+ " " +:+ zfill 2 (day d).

(** [d.strftime("%Y-%m-%d")] *)
Definition strftime_ymd (d : datetime) : string :=
  zfill 4 (year d) +:+ "-" +:+ zfill 2 (month d) +:+ "-" +:+ zfill 2 (day d).

(** [d.strftime("%Y-%m-%d %H:%M:%S")] *)
Definition strftime_stamp (d : datetime) : string :=
  zfill 4 (year d) +:+ "-" +:+ zfill 2 (month d) +:+ "-" +:+ zfill 2 (day d)
    +:+ " " +:+ zfill 2 (hour d) +:+ ":" +:+ zfill 2 (minute d) +:+ ":"
    +:+ zfill 2 (second d).

(** [d.isoformat()] *)
Definition isoformat (d : datetime) : string :=
  zfill 4 (year d) +:+ "-" +:+ zfill 2 (month d) +:+ "-" +:+ zfill 2 (day d)
    +:+ "T" +:+ zfill 2 (hour d) +:+ ":" +:+ zfill 2 (minute d) +:+ ":"
    +:+ zfill 2 (second d)
    +:+ (if microsecond d =? 0 then EmptyString else "." +:+ zfill 6 (microsecond d)).

End Py.

Import Py.

(** ** weather_api.py: data model and pure helpers *)

Module WeatherApi.

Record NearbyCity := { nc_name : string; nc_lat : string; nc_lon : string }.

Record City := {
  c_lat : string; c_lon : string;
  c_name : string; c_region : string; c_units : string;
  c_nearby : list NearbyCity
}.

(** Coordinates are only ever forwarded to the HTTP request, so they are
    kept as the decimal text of the source. *)
Definition austin_config : City :=
  {| c_lat := "30.2672"; c_lon := "-97.7431";
     c_name := "Austin"; c_region := "Metro"; c_units := "imperial";
     c_nearby := [
       {| nc_name := "Houston"; nc_lat := "29.7604"; nc_lon := "-95.3698" |};
       {| nc_name := "Dallas"; nc_lat := "32.7767"; nc_lon := "-96.7970" |};
       {| nc_name := "San Antonio"; nc_lat := "29.4241"; nc_lon := "-98.4936" |};
       {| nc_name := "El Paso"; nc_lat := "31.7619"; nc_lon := "-106.4850" |} ] |}.

Definition london_config : City :=
  {| c_lat := "51.5074"; c_lon := "-0.1278";
     c_name := "London"; c_region := "Metro"; c_units := "metric";
     c_nearby := [
       {| nc_name := "Paris"; nc_lat := "48.8566"; nc_lon := "2.3522" |};
       {| nc_name := "Berlin"; nc_lat := "52.5200"; nc_lon := "13.4050" |};
       {| nc_name := "Amsterdam"; nc_lat := "52.3676"; nc_lon := "4.9041" |};
       {| nc_name := "Brussels"; nc_lat := "50.8503"; nc_lon := "4.3517" |} ] |}.

Definition CITIES : gmap string City :=
  list_to_map [ ("austin", austin_config); ("london", london_config) ].

(** Weather condition to icon mapping, in source order. *)
Definition CONDITION_ICONS_items : list (string * string) :=
  [ ("Clear", "sun"); ("Clouds", "clouds"); ("Rain", "rain");
    ("Drizzle", "rain"); ("Thunderstorm", "thunderstorm");
    ("Snow", "snow"); ("Mist", "clouds"); ("Fog", "clouds");
    ("Haze", "clouds") ].

Definition CONDITION_ICONS : gmap string string :=
  list_to_map CONDITION_ICONS_items.

(** [CONDITION_ICONS.get(condition, "clouds")] *)
Definition get_icon_name (condition : string) : string :=
  default "clouds" (CONDITION_ICONS !! condition).

Definition descriptions : gmap string string :=
  list_to_map [
    ("Clear", "Sunny"); ("Clouds", "Cloudy"); ("Rain", "Rainy");
    ("Drizzle", "Light Rain"); ("Thunderstorm", "T'storms");
    ("Snow", "Snow"); ("Mist", "Misty"); ("Fog", "Foggy");
    ("Haze", "Hazy") ].

Definition get_description (condition : string) : string :=
  default condition (descriptions !! condition).

Record DayForecast := {
  day_name : string; high : Z; low : Z;
  condition : string; icon : string; description : string
}.

Record Forecast := {
  city : string; region : string; units : string; unit_symbol : string;
  timestamp : string; forecasts : list DayForecast
}.

Record NearbyCondition := {
  name : string; lat : string; lon : string;
  temp : Z; n_condition : string; n_icon : string
}.

(** One entry of the [list] of the service's answer, with the fields
    the code reads: [item["dt"]], [item["main"]["temp"]] and
    [item["weather"][0]["main"]]. *)
Record ApiItem := { item_dt : Z; item_temp : float; item_main : string }.

(** A value of the dict [days] of [process_forecast]. *)
Record DayBucket := {
  b_date : datetime; b_day_name : string;
  b_temps : list float; b_conditions : list string
}.

(** One pass of the first loop of [process_forecast]; [fromtimestamp]
    is [datetime.fromtimestamp] in the machine's time zone. *)
Definition add_item (fromtimestamp : Z -> datetime)
    (days : gmap string DayBucket) (item : ApiItem) : gmap string DayBucket :=
  let dt := fromtimestamp (item_dt item) in
  let day_key := strftime_ymd dt in
  let days :=
    match days !! day_key with
    | Some _ => days
    | None =>
        <[day_key := {| b_date := dt; b_day_name := upper (strftime_a dt);
                        b_temps := []; b_conditions := [] |}]> days
    end in
  alter (fun b => {| b_date := b_date b; b_day_name := b_day_name b;
                     b_temps := b_temps b ++ [item_temp item];
                     b_conditions := b_conditions b ++ [item_main item] |})
    day_key days.

(** One pass of the second loop of [process_forecast]; [set_order] lists
    the elements of [set(l)] in the order this process iterates them. *)
Definition daily (set_order : list string -> list string) (day : DayBucket)
  : result DayForecast :=
  cond ← py_max_by (count (b_conditions day)) (set_order (b_conditions day));
  hi ← py_max (b_temps day) ≫= py_round;
  lo ← py_min (b_temps day) ≫= py_round;
  Ok {| day_name := b_day_name day; high := hi; low := lo;
        condition := cond; icon := get_icon_name cond;
        description := get_description cond |}.

(** The list [forecasts] of [process_forecast]. *)
Definition daily_forecasts (fromtimestamp : Z -> datetime)
    (set_order : list string -> list string) (data : list ApiItem)
  : result (list DayForecast) :=
  let days := foldl (add_item fromtimestamp) ∅ data in
  result_map
    (fun day_key =>
       match days !! day_key with
       | Some day => daily set_order day
       | None => Raise (KeyError day_key)
       end)
    (take 3 (merge_sort String.le (elements (dom days)))).

Definition unit_symbol_of (u : string) : string :=
  if String.eqb u "imperial" then "°F" else "°C".

(** One pass of the loop body of [get_fallback_forecast]. *)
Definition fallback_day (c : City) (now : datetime) (i : Z)
  : result DayForecast :=
  match replace_day now (day now + i) with
  | Raise e => Raise e
  | Ok d =>
      Ok {| day_name := upper (strftime_a d);
            high := if String.eqb (c_units c) "imperial" then 75 else 24;
            low := if String.eqb (c_units c) "imperial" then 55 else 13;
            condition := "Clouds"; icon := "clouds";
            description := "Cloudy" |}
  end.

(** [for i in range(3): ... days.append(...)]: the first failing pass
    ends the loop with its exception. *)
Fixpoint fallback_days (c : City) (now : datetime) (idxs : list Z)
  : result (list DayForecast) :=
  match idxs with
  | [] => Ok []
  | i :: rest =>
      match fallback_day c now i with
      | Raise e => Raise e
      | Ok d =>
          match fallback_days c now rest with
          | Raise e => Raise e
          | Ok ds => Ok (d :: ds)
          end
      end
  end.

(** [get_fallback_forecast(city)], with the value read from
    [datetime.now()] as an argument. *)
Definition get_fallback_forecast (c : City) (now : datetime)
  : result Forecast :=
  match fallback_days c now (range 3) with
  | Raise e => Raise e
  | Ok days =>
      Ok {| city := c_name c; region := c_region c; units := c_units c;
            unit_symbol := unit_symbol_of (c_units c);
            timestamp := isoformat now; forecasts := days |}
  end.

End WeatherApi.

Import WeatherApi.


(** ** video_renderer.py: frame composition *)

Module VideoRenderer.

Definition WIDTH : Z := 640.
Definition HEIGHT : Z := 480.
Definition FPS : Z := 30.
Definition DURATION : Z := 20.

(** 90s Weather Channel palette. *)
Definition COLORS : gmap string string :=
  list_to_map [
    ("bg_dark", "#1a237e"); ("bg_light", "#3949ab");
    ("card_fill", "#5c6bc0"); ("card_border", "#1a237e");
    ("header_orange", "#ff6f00"); ("text_yellow", "#ffd54f");
    ("text_white", "#ffffff"); ("text_gray", "#b0bec5");
    ("bar_blue", "#283593") ].

Definition hex_digit (c : ascii) : option Z :=
  let n := Z.of_N (N_of_ascii c) in
  if (48 <=? n) && (n <=? 57) then Some (n - 48)
  else if (97 <=? n) && (n <=? 102) then Some (n - 87)
  else if (65 <=? n) && (n <=? 70) then Some (n - 55)
  else None.

Fixpoint hex_value (acc : Z) (s : string) : option Z :=
  match s with
  | EmptyString => Some acc
  | String c r =>
      match hex_digit c with
      | Some d => hex_value (16 * acc + d) r
      | None => None
      end
  end.

(** [int(s, 16)] on a non-empty run of hexadecimal digits; anything
    else is a [ValueError]. *)
Definition int16 (s : string) : result Z :=
  match s with
  | EmptyString => Raise (ValueError "invalid literal for int() with base 16")
  | _ =>
      match hex_value 0 s with
      | Some v => Ok v
      | None => Raise (ValueError "invalid literal for int() with base 16")
      end
  end.

(** [hex_to_rgb(hex_color)] *)
Definition hex_to_rgb (hex_color : string) : result (Z * Z * Z) :=
  let h := lstrip_hash hex_color in
  match int16 (String.substring 0 2 h) with
  | Raise e => Raise e
  | Ok r =>
      match int16 (String.substring 2 2 h) with
      | Raise e => Raise e
      | Ok g =>
          match int16 (String.substring 4 2 h) with
          | Raise e => Raise e
          | Ok b => Ok (r, g, b)
          end
      end
  end.

(** A [fill=] argument: an RGB tuple or a colour string handed to Pillow
    as it is. *)
Inductive fill :=
  | RGB (r g b : Z)
  | ColorName (s : string).

(** [hex_to_rgb(COLORS[key])] for a key of the palette (every call site
    passes one; see [palette_defined]). *)
Definition palette (key : string) : fill :=
  match COLORS !! key with
  | Some h =>
      match hex_to_rgb h with
      | Ok (r, g, b) => RGB r g b
      | Raise _ => RGB 0 0 0
      end
  | None => RGB 0 0 0
  end.

Inductive Font :=
  | TrueType (path : string) (size : Z)
  | DefaultFont.

(** What the renderer takes from the machine it runs on: which font
    files exist and load, and Pillow's text measure, in 1/64 pixel as
    FreeType reports it. *)
Record Platform := {
  path_exists : string -> bool;
  truetype_loads : string -> Z -> bool;
  getlength64 : Font -> string -> Z
}.

(** The drawing calls issued on an [ImageDraw], in order. *)
Inductive DrawOp :=
  | Line (xy : list (Z * Z)) (color : fill) (width : Z)
  | Rectangle (x0 y0 x1 y1 : Z) (color : option fill)
      (outline : option fill) (width : Z)
  | Ellipse (x0 y0 x1 y1 : Z) (color : fill)
  | Text (x y : Z) (text : string) (color : fill) (font : Font).

(** An image is its mode and size together with the calls drawn on it
    since [Image.new]: two images with the same fields hold the same
    pixels. *)
Record Image := {
  img_mode : string;
  img_size : Z * Z;
  img_ops : list DrawOp
}.

(** [Image.new(mode, size)] *)
Definition Image_new (mode : string) (size : Z * Z) : Image :=
  {| img_mode := mode; img_size := size; img_ops := [] |}.

(** The calls [ops] made through [ImageDraw.Draw(img)]. *)
Definition draw (img : Image) (ops : list DrawOp) : Image :=
  {| img_mode := img_mode img; img_size := img_size img;
     img_ops := img_ops img ++ ops |}.

Definition font_paths : list string :=
  [ "/usr/share/fonts/truetype/dejavu/DejaVuSans-Bold.ttf";
    "/usr/share/fonts/truetype/liberation/LiberationSans-Bold.ttf";
    "/System/Library/Fonts/Helvetica.ttc";
    "/Library/Fonts/Arial Bold.ttf" ].

Fixpoint first_font (P : Platform) (paths : list string) (size : Z) : Font :=
  match paths with
  | [] => DefaultFont
  | p :: rest =>
      if path_exists P p && truetype_loads P p size then TrueType p size
      else first_font P rest size
  end.

Definition get_font (P : Platform) (size : Z) : Font :=
  first_font P font_paths size.

(** [int(top + (bottom - top) * ratio)] with [ratio = y / height] *)
Definition gradient_channel (top bottom y height : Z) : Z :=
  let ratio := PrimFloat.div (float_of_Z y) (float_of_Z height) in
  int_of_float
    (PrimFloat.add (float_of_Z top)
       (PrimFloat.mul (float_of_Z (bottom - top)) ratio)).

Definition rgb_of (c : fill) : Z * Z * Z :=
  match c with RGB r g b => (r, g, b) | ColorName _ => (0, 0, 0) end.

Definition draw_gradient_bg (width height : Z) : list DrawOp :=
  let '(tr, tg, tb) := rgb_of (palette "bg_dark") in
  let '(br, bg, bb) := rgb_of (palette "bg_light") in
  (fun y =>
     Line [(0, y); (width, y)]
       (RGB (gradient_channel tr br y height)
            (gradient_channel tg bg y height)
            (gradient_channel tb bb y height)) 0) <$> range height.

Definition draw_header (P : Platform) (now : datetime) (city region : string)
  : list DrawOp :=
  let font_small := get_font P 8 in
  let font_medium := get_font P 12 in
  let font_title := get_font P 24 in
  let time_str := strftime_clock12 now in
  let date_str := upper (strftime_date now) in
  let font_time := get_font P 14 in
  [ Rectangle 0 0 WIDTH 50 (Some (palette "header_orange")) None 1;
    Rectangle 10 8 120 42 (Some (palette "bg_dark"))
      (Some (palette "text_white")) 2;
    Text 18 10 "THE" (palette "text_white") font_small;
    Text 18 18 "WEATHER" (palette "text_white") font_small;
    Text 18 28 "CHANNEL" (palette "text_white") font_small;
    Text 140 8 (city +:+ " " +:+ region) (palette "text_white") font_title;
    Text 140 32 "Extended Forecast" (palette "text_yellow") font_medium;
    Text 520 10 time_str (palette "text_white") font_time;
    Text 520 28 date_str (palette "text_white") font_time ].

(** [(avail - draw.textlength(text, font=font)) // 2]: the measure is a
    multiple of 1/64, so the floor is exact. *)
Definition centred (P : Platform) (avail : Z) (font : Font) (text : string) : Z :=
  (avail * 64 - getlength64 P font text) / 128.

(** [int(r * math.cos(math.radians(angle)))] and the same for [sin], at
    the multiples of 45 degrees the sun's rays use. *)
Definition diag (r : Z) : Z := Z.quot (r * 7071067811865476) 10000000000000000.

Definition int_cos (r angle : Z) : Z :=
  match angle with
  | 0 => r | 45 => diag r | 90 => 0 | 135 => - diag r
  | 180 => - r | 225 => - diag r | 270 => 0 | 315 => diag r
  | _ => 0
  end.

Definition int_sin (r angle : Z) : Z :=
  match angle with
  | 0 => 0 | 45 => diag r | 90 => r | 135 => diag r
  | 180 => 0 | 225 => - diag r | 270 => - r | 315 => - diag r
  | _ => 0
  end.

(** [range(start, stop, step)] for a positive step. *)
Definition range_step (start stop step : Z) : list Z :=
  (fun k => start + k * step) <$> range ((stop - start + step - 1) / step).

Definition cloud (cx cy : Z) (side mid : string) : list DrawOp :=
  [ Ellipse (cx - 30) (cy - 25) cx cy (ColorName side);
    Ellipse (cx - 15) (cy - 30) (cx + 20) (cy - 5) (ColorName mid);
    Ellipse (cx + 5) (cy - 25) (cx + 35) cy (ColorName side) ].

(** [draw_weather_icon(draw, cx, cy, icon_type)]: an [if]/[elif] chain
    over the five kinds, with no [else]. *)
Definition draw_weather_icon (cx cy : Z) (icon_type : string) : list DrawOp :=
  if String.eqb icon_type "sun" then
    Ellipse (cx - 25) (cy - 25) (cx + 25) (cy + 25) (ColorName "#ffd54f")
    :: ((fun angle =>
           Line [ (cx + int_cos 30 angle, cy + int_sin 30 angle);
                  (cx + int_cos 40 angle, cy + int_sin 40 angle) ]
             (ColorName "#ffd54f") 3) <$> range_step 0 360 45)
  else if String.eqb icon_type "clouds" then
    [ Ellipse (cx - 35) (cy - 10) (cx - 5) (cy + 20) (ColorName "#9e9e9e");
      Ellipse (cx - 20) (cy - 20) (cx + 20) (cy + 15) (ColorName "#bdbdbd");
      Ellipse cx (cy - 10) (cx + 35) (cy + 20) (ColorName "#9e9e9e") ]
  else if String.eqb icon_type "rain" then
    cloud cx cy "#9e9e9e" "#bdbdbd"
    ++ ((fun i =>
           Line [ (cx + i, cy + 10); (cx + i - 5, cy + 30) ]
             (ColorName "#64b5f6") 2) <$> range_step (-20) 25 15)
  else if String.eqb icon_type "thunderstorm" then
    let points := [ (cx, cy + 5); (cx - 8, cy + 20); (cx, cy + 18);
                    (cx - 5, cy + 35) ] in
    cloud cx cy "#616161" "#757575"
    ++ [ Line (take 2 points) (ColorName "#ffeb3b") 3;
         Line (take 2 (drop 1 points)) (ColorName "#ffeb3b") 3;
         Line (drop 2 points) (ColorName "#ffeb3b") 3 ]
    ++ ((fun i =>
           Line [ (cx + i, cy + 10); (cx + i - 3, cy + 25) ]
             (ColorName "#64b5f6") 2) <$> [ -15; 15 ])
  else if String.eqb icon_type "snow" then
    cloud cx cy "#bdbdbd" "#e0e0e0"
    ++ concat
         ((fun i =>
             [ Ellipse (cx + i - 3) (cy + 15) (cx + i + 3) (cy + 21)
                 (ColorName "#ffffff");
               Ellipse (cx + i - 3) (cy + 28) (cx + i + 3) (cy + 34)
                 (ColorName "#ffffff") ]) <$> range_step (-20) 25 15)
  else [].

Definition card_width : Z := 180.
Definition card_height : Z := 280.

Definition draw_forecast_card (P : Platform) (x y : Z)
    (day_name icon description : string) (high low : Z) (unit : string)
  : list DrawOp :=
  let font_day := get_font P 28 in
  let icon_y := y + 50 in
  let font_desc := get_font P 16 in
  let font_label := get_font P 14 in
  let font_temp := get_font P 36 in
  [ Rectangle x y (x + card_width) (y + card_height)
      (Some (palette "card_fill")) (Some (palette "card_border")) 3;
    Text (x + centred P card_width font_day day_name) (y + 10) day_name
      (palette "text_yellow") font_day ]
  ++ draw_weather_icon (x + card_width / 2) (icon_y + 40) icon
  ++ [ Text (x + centred P card_width font_desc description) (y + 150)
         description (palette "text_white") font_desc;
       Text (x + 30) (y + 190) "Lo" (palette "text_gray") font_label;
       Text (x + 110) (y + 190) "Hi" (palette "text_gray") font_label;
       Text (x + 20) (y + 210) (pretty low) (palette "text_white") font_temp;
       Text (x + 100) (y + 210) (pretty high) (palette "text_white") font_temp ].

Definition draw_bottom_bar (P : Platform) (text : string) : list DrawOp :=
  let font := get_font P 16 in
  [ Rectangle 0 (HEIGHT - 35) WIDTH HEIGHT (Some (palette "bar_blue")) None 1;
    Text (centred P WIDTH font text) (HEIGHT - 28) text
      (palette "text_white") font ].

Definition card_start_x : Z := 30.
Definition card_y : Z := 70.
Definition card_spacing : Z := 200.

(** The cards drawn by the loop over [enumerate(forecast["forecasts"][:3])],
    one list of calls per pass. *)
Definition forecast_cards (P : Platform) (f : Forecast) : list (list DrawOp) :=
  (fun '(i, d) =>
     draw_forecast_card P (card_start_x + i * card_spacing) card_y
       (day_name d) (icon d) (description d) (high d) (low d)
       (unit_symbol f)) <$> enumerate (take 3 (forecasts f)).

(** The body of [generate_forecast_frame(forecast)], given what
    [datetime.now()] returns inside [draw_header]. *)
Definition forecast_frame_at (P : Platform) (now : datetime)
    (f : Forecast) : Image :=
  let img := Image_new "RGB" (WIDTH, HEIGHT) in
  let img := draw img (draw_gradient_bg WIDTH HEIGHT) in
  let img := draw img (draw_header P now (city f) (region f)) in
  let img := draw img (concat (forecast_cards P f)) in
  draw img (draw_bottom_bar P "BAROMETRIC PRESSURE: 30.03 IN.").

Definition austin_positions : gmap string (Z * Z) :=
  list_to_map [
    ("Austin", (280, 300)); ("Houston", (320, 320)); ("Dallas", (290, 250));
    ("San Antonio", (260, 320)); ("El Paso", (150, 290)) ].

Definition europe_positions : gmap string (Z * Z) :=
  list_to_map [
    ("London", (200, 180)); ("Paris", (220, 240)); ("Berlin", (350, 200));
    ("Amsterdam", (250, 170)); ("Brussels", (240, 210)) ].

Definition positions_for (city_key : string) : gmap string (Z * Z) :=
  if String.eqb city_key "austin" then austin_positions else europe_positions.

Definition map_outline (P : Platform) (city_key : string) : list DrawOp :=
  if String.eqb city_key "austin" then
    [ Rectangle 50 100 590 380 None (Some (palette "text_gray")) 2;
      Text 300 90 "UNITED STATES" (palette "text_yellow") (get_font P 20) ]
  else
    [ Rectangle 50 100 590 380 None (Some (palette "text_gray")) 2;
      Text 280 90 "WESTERN EUROPE" (palette "text_yellow") (get_font P 20) ].

(** [highlight_idx = frame_num % (len(nearby) + 1)] *)
Definition highlight_idx (nearby : list NearbyCondition) (frame_num : Z) : Z :=
  frame_num mod (Z.of_nat (length nearby) + 1).

(** One pass of [for i, city_data in enumerate(nearby)]. *)
Definition map_entry (P : Platform) (positions : gmap string (Z * Z))
    (hl : Z) (i : Z) (city_data : NearbyCondition) : list DrawOp :=
  let font_city := get_font P 12 in
  let font_temp := get_font P 16 in
  match positions !! name city_data with
  | Some (x, y) =>
      let is_highlighted := bool_decide (i = hl - 1) in
      let color := if is_highlighted then "text_yellow" else "text_white" in
      draw_weather_icon x y (n_icon city_data)
      ++ [ Text (x - 20) (y + 45) (name city_data) (palette color) font_city;
           Text (x - 10) (y + 60) (pretty (temp city_data) +:+ "°")
             (palette color) font_temp ]
  | None => []
  end.

Definition map_entries (P : Platform) (city_key : string)
    (nearby : list NearbyCondition) (frame_num : Z) : list (list DrawOp) :=
  (fun '(i, city_data) =>
     map_entry P (positions_for city_key) (highlight_idx nearby frame_num)
       i city_data) <$> enumerate nearby.

(** [generate_map_frame(city_key, nearby, frame_num)] *)
Definition generate_map_frame (P : Platform) (city_key : string)
    (nearby : list NearbyCondition) (frame_num : Z) : Image :=
  let img := Image_new "RGB" (WIDTH, HEIGHT) in
  let img := draw img (draw_gradient_bg WIDTH HEIGHT) in
  let img := draw img (map_outline P city_key) in
  let img := draw img (concat (map_entries P city_key nearby frame_num)) in
  draw img (draw_bottom_bar P "REGIONAL CONDITIONS").

End VideoRenderer.

Import VideoRenderer.

(** ** The world the scripts run in *)

Module Runtime.

Inductive file :=
  | PngFile (img : Image)
  | TextFile (lines : list string)
  | JsonFile (f : Forecast)
  | DataFile (data : string).

Inductive node :=
  | Dir
  | File (f : file).

(** What changes during a run: the files, the two output streams and how
    often each clock has been read. *)
Record World := {
  fs : gmap string node;
  stdout : list string;
  stderr : list string;
  clock_reads : nat;
  timer_reads : nat
}.

(** The outcome of [subprocess.run(cmd, capture_output=True, text=True)]
    before [check=True] is applied: the process may have left an output
    file behind whatever its exit status. *)
Inductive process :=
  | Exited (returncode : Z) (err : string) (written : option string)
  | NotStarted.

(** What the run does not control: the machine, the clocks, the weather
    service and the encoder. *)
Record Env := {
  platform : Platform;
  base_dir : string;
  clock : nat -> datetime;
  timer : nat -> float;
  format_1f : float -> string;
  fromtimestamp : Z -> datetime;
  set_order : list string -> list string;
  (* the request of [fetch_forecast] for a city key: the items of
     [data.get("list", [])], or the exception of the request, of its
     status, of the decoding or of a missing field *)
  forecast_request : string -> result (list ApiItem);
  (* the request of [fetch_nearby_weather] for one city and unit system:
     [data["main"]["temp"]] and [data["weather"][0]["main"]] *)
  weather_request : NearbyCity -> string -> result (float * string);
  ffmpeg : list string -> gmap string node -> process;
  (* the name of [signal.Signals(n)], which [str] of a
     [CalledProcessError] looks up when the process was killed *)
  signal_name : Z -> option string
}.

Definition M (A : Type) : Type := World -> result A * World.

#[global] Instance M_ret : MRet M := fun A a w => (Ok a, w).

#[global] Instance M_bind : MBind M := fun A B k m w =>
  match m w with
  | (Ok a, w') => k a w'
  | (Raise e, w') => (Raise e, w')
  end.

Definition raise {A} (e : exn) : M A := fun w => (Raise e, w).

(** [try: m  except Exception as e: h e] *)
Definition try_except {A} (m : M A) (h : exn -> M A) : M A := fun w =>
  match m w with
  | (Ok a, w') => (Ok a, w')
  | (Raise e, w') => h e w'
  end.

Definition set_fs (g : gmap string node) (w : World) : World :=
  {| fs := g; stdout := stdout w; stderr := stderr w;
     clock_reads := clock_reads w; timer_reads := timer_reads w |}.

Definition print (s : string) : M unit := fun w =>
  (Ok tt, {| fs := fs w; stdout := stdout w ++ [s]; stderr := stderr w;
             clock_reads := clock_reads w; timer_reads := timer_reads w |}).

(** [traceback.print_exc()] writes the pending exception to stderr; the
    entry stands for the whole report, whose stack frames are left out. *)
Definition print_exc (E : Env) (e : exn) : M unit := fun w =>
  (Ok tt, {| fs := fs w; stdout := stdout w;
             stderr := stderr w
                       ++ ["Traceback: " +:+ exn_str (signal_name E) e];
             clock_reads := clock_reads w; timer_reads := timer_reads w |}).

(** [datetime.now()] *)
Definition datetime_now (E : Env) : M datetime := fun w =>
  (Ok (clock E (clock_reads w)),
   {| fs := fs w; stdout := stdout w; stderr := stderr w;
      clock_reads := S (clock_reads w); timer_reads := timer_reads w |}).

(** [time.time()] *)
Definition time_time (E : Env) : M float := fun w =>
  (Ok (timer E (timer_reads w)),
   {| fs := fs w; stdout := stdout w; stderr := stderr w;
      clock_reads := clock_reads w; timer_reads := S (timer_reads w) |}).

(** [parent / child] *)
Definition join (parent child : string) : string := parent +:+ "/" +:+ child.

(** [path.exists()] *)
Definition exists_ (path : string) : M bool := fun w =>
  (Ok (bool_decide (is_Some (fs w !! path))), w).

(** [path.mkdir(exist_ok=True)] *)
Definition mkdir_exist_ok (path : string) : M unit := fun w =>
  match fs w !! path with
  | Some Dir => (Ok tt, w)
  | Some (File _) => (Raise (FileExistsError path), w)
  | None => (Ok tt, set_fs (<[path := Dir]> (fs w)) w)
  end.

(** Writing a whole file: [img.save(path)], [open(path, "w")] followed
    by the writes, [json.dump].  The write is taken to succeed: every
    path written lies in a directory the scripts have just made. *)
Definition write_file (path : string) (f : file) : M unit := fun w =>
  (Ok tt, set_fs (<[path := File f]> (fs w)) w).

Definition under (d path : string) : bool :=
  String.eqb path d || String.prefix (d +:+ "/") path.

(** [shutil.rmtree(d)] *)
Definition rmtree (d : string) : M unit := fun w =>
  match fs w !! d with
  | Some Dir =>
      (Ok tt, set_fs (filter (fun kv => negb (under d kv.1)) (fs w)) w)
  | Some (File _) => (Raise (NotADirectoryError d), w)
  | None => (Raise (FileNotFoundError d), w)
  end.

(** [for x in l: body x], collecting what each pass yields. *)
Fixpoint for_each {A B} (l : list A) (body : A -> M B) : M (list B) :=
  match l with
  | [] => mret []
  | a :: rest =>
      b ← body a;
      bs ← for_each rest body;
      mret (b :: bs)
  end.

End Runtime.

Import Runtime.

(** ** weather_api.py: the provider *)

Module Provider.

Definition CACHE_DIR (E : Env) : string := join (base_dir E) "cache".

(** [CITIES[city_key]] *)
Definition lookup_city (city_key : string) : M City :=
  match CITIES !! city_key with
  | Some c => mret c
  | None => raise (KeyError city_key)
  end.

(** [with open(cache_file) as f: return json.load(f)] *)
Definition json_load (path : string) : M Forecast := fun w =>
  match fs w !! path with
  | Some (File (JsonFile f)) => (Ok f, w)
  | Some (File _) => (Raise (JSONDecodeError path), w)
  | Some Dir => (Raise (IsADirectoryError path), w)
  | None => (Raise (FileNotFoundError path), w)
  end.

(** A computation that touches nothing. *)
Definition lift {A} (r : result A) : M A := fun w => (r, w).

(** [process_forecast(data, city)] *)
Definition process_forecast (E : Env) (data : list ApiItem) (c : City)
  : M Forecast :=
  days ← lift (daily_forecasts (fromtimestamp E) (set_order E) data);
  now ← datetime_now E;
  mret {| city := c_name c; region := c_region c; units := c_units c;
          unit_symbol := unit_symbol_of (c_units c);
          timestamp := isoformat now; forecasts := days |}.

(** [fetch_forecast(city_key)] *)
Definition fetch_forecast (E : Env) (city_key : string) : M Forecast :=
  c ← lookup_city city_key;
  let cache_file := join (CACHE_DIR E) (city_key +:+ "_forecast.json") in
  try_except
    (data ← lift (forecast_request E city_key);
     forecast ← process_forecast E data c;
     write_file cache_file (JsonFile forecast) ;;
     print ("✓ Fetched forecast for " +:+ c_name c) ;;
     mret forecast)
    (fun e =>
       print ("✗ API error for " +:+ c_name c +:+ ": "
              +:+ exn_str (signal_name E) e) ;;
       cached ← exists_ cache_file;
       if (cached : bool) then
         print ("  Using cached data for " +:+ c_name c) ;;
         json_load cache_file
       else
         now ← datetime_now E;
         lift (get_fallback_forecast c now)).

(** One pass of the loop of [fetch_nearby_weather]. *)
Definition nearby_entry (E : Env) (c : City) (nearby : NearbyCity)
  : M NearbyCondition :=
  try_except
    (data ← lift (weather_request E nearby (c_units c));
     t ← lift (py_round data.1);
     mret {| name := nc_name nearby; lat := nc_lat nearby;
             lon := nc_lon nearby; temp := t;
             n_condition := data.2; n_icon := get_icon_name data.2 |})
    (fun e =>
       print ("  Warning: Could not fetch " +:+ nc_name nearby +:+ ": "
              +:+ exn_str (signal_name E) e) ;;
       mret {| name := nc_name nearby; lat := nc_lat nearby;
               lon := nc_lon nearby;
               temp := if String.eqb (c_units c) "imperial" then 70 else 21;
               n_condition := "Clouds"; n_icon := "clouds" |}).

(** [fetch_nearby_weather(city_key)] *)
Definition fetch_nearby_weather (E : Env) (city_key : string)
  : M (list NearbyCondition) :=
  c ← lookup_city city_key;
  for_each (c_nearby c) (nearby_entry E c).

End Provider.

Import Provider.

(** ** video_renderer.py: the sequencer *)

Module Sequencer.

Definition OUTPUT_DIR (E : Env) : string := join (base_dir E) "output".

(** A line of the concat file. *)
Inductive directive :=
  | FileLine (path : string)
  | DurationLine (seconds : Z).

(** The text [f.write] puts out for a directive. *)
Definition render (d : directive) : string :=
  match d with
  | FileLine p => "file '" +:+ p +:+ "'"
  | DurationLine n => "duration " +:+ pretty n
  end.

(** The body of [with open(concat_file, "w") as f], given the last
    element of [map_frames]. *)
Definition concat_directives (forecast_path : string)
    (map_frames : list string) (last_frame : string) : list directive :=
  [ FileLine forecast_path; DurationLine 10 ]
  ++ concat ((fun frame => [ FileLine frame; DurationLine 1 ]) <$> map_frames)
  ++ [ FileLine last_frame ].

Definition output_name (city_key : string) : string :=
  if String.eqb city_key "austin" then "ATXweather.mp4" else "LDNweather.mp4".

Definition temp_dir (E : Env) (city_key : string) : string :=
  join (OUTPUT_DIR E) ("temp_" +:+ city_key).

Definition frame_path (E : Env) (city_key : string) (i : Z) : string :=
  join (temp_dir E city_key) ("map_" +:+ zfill 3 i +:+ ".png").

Definition ffmpeg_cmd (concat_file output_path : string) : list string :=
  [ "ffmpeg"; "-y"; "-f"; "concat"; "-safe"; "0"; "-i"; concat_file;
    "-vf"; "fps=" +:+ pretty FPS +:+ ",format=yuv420p";
    "-c:v"; "libx264"; "-preset"; "medium"; "-crf"; "23"; output_path ].

(** [subprocess.run(cmd, capture_output=True, text=True, check=True)] *)
Definition subprocess_run (E : Env) (cmd : list string) (output_path : string)
  : M unit := fun w =>
  match ffmpeg E cmd (fs w) with
  | NotStarted => (Raise (FileNotFoundError "ffmpeg"), w)
  | Exited rc err written =>
      let w' :=
        match written with
        | Some data => set_fs (<[output_path := File (DataFile data)]> (fs w)) w
        | None => w
        end in
      if rc =? 0 then (Ok tt, w')
      else (Raise (CalledProcessError rc cmd err), w')
  end.

(** [generate_forecast_frame(forecast)]: the only thing it reads besides
    its argument and the machine's fonts is the clock, once. *)
Definition generate_forecast_frame (E : Env) (forecast : Forecast) : M Image :=
  now ← datetime_now E;
  mret (forecast_frame_at (platform E) now forecast).

(** The part of [generate_video] that composes and stores the frames and
    the concat file. *)
Definition write_frames (E : Env) (city_key : string) (forecast : Forecast)
    (nearby : list NearbyCondition) : M (list string) :=
  forecast_img ← generate_forecast_frame E forecast;
  let forecast_path := join (temp_dir E city_key) "forecast.png" in
  write_file forecast_path (PngFile forecast_img) ;;
  map_frames ← for_each (range 10) (fun i =>
    let map_img := generate_map_frame (platform E) city_key nearby i in
    write_file (frame_path E city_key i) (PngFile map_img) ;;
    mret (frame_path E city_key i));
  let concat_file := join (temp_dir E city_key) "concat.txt" in
  match last map_frames with
  | None => raise (IndexError "list index out of range")
  | Some last_frame =>
      write_file concat_file
        (TextFile (render <$>
           concat_directives forecast_path map_frames last_frame)) ;;
      mret map_frames
  end.

(** [generate_video(city_key, forecast, nearby)] *)
Definition generate_video (E : Env) (city_key : string) (forecast : Forecast)
    (nearby : list NearbyCondition) : M string :=
  let output_path := join (OUTPUT_DIR E) (output_name city_key) in
  mkdir_exist_ok (temp_dir E city_key) ;;
  print ("Generating " +:+ output_name city_key +:+ "...") ;;
  write_frames E city_key forecast nearby ;;
  let concat_file := join (temp_dir E city_key) "concat.txt" in
  let cmd := ffmpeg_cmd concat_file output_path in
  try_except
    (subprocess_run E cmd output_path ;;
     print ("✓ Generated " +:+ output_path))
    (fun e =>
       match e with
       | CalledProcessError _ _ err =>
           print ("✗ ffmpeg error: " +:+ err) ;; raise e
       | _ => raise e
       end) ;;
  (* Cleanup temp files *)
  rmtree (temp_dir E city_key) ;;
  mret output_path.

End Sequencer.

Import Sequencer.

(** ** generate_weather.py: the driver *)

Module Driver.

Definition cities : list string := [ "austin"; "london" ].

Definition rule : string :=
  "==================================================".

(** The line feed written as [\n] in the source's literals. *)
Definition nl : string := String (ascii_of_N 10) EmptyString.

(** The body of the [try] inside the loop: it ends by appending the new
    path to [generated]. *)
Definition process_city (E : Env) (generated : list string)
    (city_key : string) : M (list string) :=
  print (nl +:+ "--- Processing " +:+ upper city_key +:+ " ---") ;;
  forecast ← fetch_forecast E city_key;
  nearby ← fetch_nearby_weather E city_key;
  output_path ← generate_video E city_key forecast nearby;
  mret (generated ++ [output_path]).

(** The [except Exception as e] clause of the loop. *)
Definition report_failure (E : Env) (generated : list string)
    (city_key : string) (e : exn) : M (list string) :=
  print ("✗ Failed to generate " +:+ city_key +:+ ": "
         +:+ exn_str (signal_name E) e) ;;
  print_exc E e ;;
  mret generated.

(** [for city_key in cities: try: ... except Exception as e: ...] *)
Fixpoint city_loop (E : Env) (todo : list string) (generated : list string)
  : M (list string) :=
  match todo with
  | [] => mret generated
  | city_key :: rest =>
      generated' ← try_except (process_city E generated city_key)
                              (report_failure E generated city_key);
      city_loop E rest generated'
  end.

(** The opening lines of [generate_all_videos]; yields [start_time]. *)
Definition announce (E : Env) : M float :=
  start_time ← time_time E;
  print (nl +:+ rule) ;;
  print "90s Weather Channel Video Generator" ;;
  started ← datetime_now E;
  print ("Started at: " +:+ strftime_stamp started) ;;
  print (rule +:+ nl) ;;
  mret start_time.

(** The closing lines of [generate_all_videos], from [elapsed = ...] to
    the [return]. *)
Definition summarize (E : Env) (start_time : float) (generated : list string)
  : M bool :=
  finish ← time_time E;
  let elapsed := PrimFloat.sub finish start_time in
  print (nl +:+ rule) ;;
  print "Generation complete!" ;;
  print ("Time elapsed: " +:+ format_1f E elapsed +:+ " seconds") ;;
  print ("Videos generated: " +:+ pretty (Z.of_nat (length generated))) ;;
  for_each generated (fun path => print ("  - " +:+ path)) ;;
  print (rule +:+ nl) ;;
  mret (bool_decide (length generated = length cities)).

(** [generate_all_videos()] *)
Definition generate_all_videos (E : Env) : M bool :=
  start_time ← announce E;
  generated ← city_loop E cities [];
  summarize E start_time generated.

(** [sys.exit(0 if success else 1)] under [if __name__ == "__main__"]:
    the exit status, or the exception that ends the process. *)
Definition main (E : Env) : M Z :=
  success ← generate_all_videos E;
  mret (if (success : bool) then 0 else 1).

End Driver.

Import Driver.

(** ** Sample machines, dates and inputs *)

Module Samples.

(** A machine with none of the four font files. *)
Definition bare : Platform :=
  {| path_exists := fun _ => false;
     truetype_loads := fun _ _ => true;
     getlength64 := fun _ s => 64 * 6 * Z.of_nat (String.length s) |}.

Definition at_date (y m d : Z) : datetime :=
  {| year := y; month := m; day := d; hour := 9; minute := 5;
     second := 7; microsecond := 0 |}.

Definition jan10 : datetime := at_date 2024 1 10.
Definition jan30 : datetime := at_date 2024 1 30.
Definition jan31 : datetime := at_date 2024 1 31.

Definition empty_world : World :=
  {| fs := ∅; stdout := []; stderr := []; clock_reads := 0; timer_reads := 0 |}.

(** The signal numbers of Linux that [signal.Signals] knows by name. *)
Definition linux_signals (n : Z) : option string :=
  if n =? 34 then Some "SIGRTMIN"
  else if n =? 64 then Some "SIGRTMAX"
  else if n <=? 0 then None
  else
    [ "SIGHUP"; "SIGINT"; "SIGQUIT"; "SIGILL"; "SIGTRAP"; "SIGABRT";
      "SIGBUS"; "SIGFPE"; "SIGKILL"; "SIGUSR1"; "SIGSEGV"; "SIGUSR2";
      "SIGPIPE"; "SIGALRM"; "SIGTERM"; "SIGSTKFLT"; "SIGCHLD"; "SIGCONT";
      "SIGSTOP"; "SIGTSTP"; "SIGTTIN"; "SIGTTOU"; "SIGURG"; "SIGXCPU";
      "SIGXFSZ"; "SIGVTALRM"; "SIGPROF"; "SIGWINCH"; "SIGIO"; "SIGPWR";
      "SIGSYS" ] !! Z.to_nat (n - 1).

(** The weather service is unreachable and [encoder] stands for ffmpeg. *)
Definition offline (now : datetime)
    (encoder : list string -> gmap string node -> process) : Env :=
  {| platform := bare; base_dir := "/app"; clock := fun _ => now;
     timer := fun _ => 0%float; format_1f := fun _ => "0.0";
     fromtimestamp := fun _ => now; set_order := remove_dups;
     forecast_request := fun _ => Raise (RequestException "timed out");
     weather_request := fun _ _ => Raise (RequestException "timed out");
     ffmpeg := encoder; signal_name := linux_signals |}.

Definition failing_encoder (cmd : list string) (g : gmap string node)
  : process := Exited 1 "Unknown encoder 'libx264'" None.

Definition working_encoder (cmd : list string) (g : gmap string node)
  : process := Exited 0 EmptyString (Some "mp4").

Definition thursday : DayForecast :=
  {| day_name := "THU"; high := 84; low := 61; condition := "Thunderstorm";
     icon := "thunderstorm"; description := "T'storms" |}.

Definition test_forecast : Forecast :=
  {| city := "Austin"; region := "Metro"; units := "imperial";
     unit_symbol := "°F"; timestamp := "2024-01-10T09:05:07";
     forecasts := [ thursday; thursday; thursday ] |}.

Definition nearby_of (n : string) : NearbyCondition :=
  {| name := n; lat := "0"; lon := "0"; temp := 70;
     n_condition := "Clouds"; n_icon := "clouds" |}.

(** An answer of the service spread over five days; item [dt] lies on
    day 10 + dt / 10 of January 2024 under [sample_fromtimestamp]. *)
Definition sample_items : list ApiItem :=
  [ {| item_dt := 0; item_temp := 61.25%float; item_main := "Rain" |};
    {| item_dt := 1; item_temp := 84.5%float; item_main := "Clear" |};
    {| item_dt := 2; item_temp := 70.5%float; item_main := "Clear" |};
    {| item_dt := 30; item_temp := 50.5%float; item_main := "Snow" |};
    {| item_dt := 40; item_temp := 49%float; item_main := "Mist" |};
    {| item_dt := 50; item_temp := 48%float; item_main := "Tornado" |};
    {| item_dt := 20; item_temp := 51.5%float; item_main := "Clouds" |} ].

Definition sample_fromtimestamp (dt : Z) : datetime :=
  at_date 2024 1 (10 + dt / 10).

End Samples.

Import Samples.

(** ** What the properties observe *)

Module Observe.

(** The icon kinds the renderer knows. *)
Definition icon_kinds : list string :=
  [ "sun"; "clouds"; "rain"; "thunderstorm"; "snow" ].

Definition fill_eqb (a b : fill) : bool :=
  match a, b with
  | RGB r g b, RGB r' g' b' => (r =? r') && (g =? g') && (b =? b')
  | ColorName s, ColorName t => String.eqb s t
  | _, _ => false
  end.

(** A forecast card shows as its background: the rectangle filled with
    the card colour inside a 3-pixel border of the border colour. *)
Definition is_card_rect (op : DrawOp) : option (Z * Z) :=
  match op with
  | Rectangle x0 y0 _ _ (Some c) (Some o) w =>
      if fill_eqb c (palette "card_fill")
         && fill_eqb o (palette "card_border") && (w =? 3)
      then Some (x0, y0) else None
  | _ => None
  end.

(** The top-left corners of the cards among some calls, in drawing order. *)
Definition card_origins (ops : list DrawOp) : list (Z * Z) :=
  omap is_card_rect ops.

(** An entry of the map is highlighted when its labels are written in
    the highlight colour. *)
Definition is_highlight_text (op : DrawOp) : bool :=
  match op with
  | Text _ _ _ c _ => fill_eqb c (palette "text_yellow")
  | _ => false
  end.

Definition marked_highlighted (ops : list DrawOp) : bool :=
  existsb is_highlight_text ops.

(** The seconds a list of directives adds up to. *)
Definition total_duration (ds : list directive) : Z :=
  foldr Z.add 0
    ((fun d => match d with DurationLine n => n | FileLine _ => 0 end) <$> ds).

(** The render plan a concat file denotes: every file with the duration
    that follows it, if one does. *)
Fixpoint plan_of (ds : list directive) : list (string * option Z) :=
  match ds with
  | FileLine p :: DurationLine n :: rest => (p, Some n) :: plan_of rest
  | FileLine p :: rest => (p, None) :: plan_of rest
  | DurationLine _ :: rest => plan_of rest
  | [] => []
  end.

(** [f] with its days replaced. *)
Definition with_days (f : Forecast) (ds : list DayForecast) : Forecast :=
  {| city := city f; region := region f; units := units f;
     unit_symbol := unit_symbol f; timestamp := timestamp f;
     forecasts := ds |}.

(** The body of the loop over the cards, for the pair [enumerate] yields. *)
Definition card_of (P : Platform) (u : string) (p : Z * DayForecast)
  : list DrawOp :=
  draw_forecast_card P (card_start_x + p.1 * card_spacing) card_y
    (day_name p.2) (icon p.2) (description p.2) (high p.2) (low p.2) u.

(** What the loop of [generate_all_videos] hands on after one city, given
    the outcome of the [try] body: the list [generated] and the world,
    after the [except] clause if the body raised. *)
Definition after_city (E : Env) (generated : list string) (city_key : string)
    (r : result (list string) * World) : list string * World :=
  match r with
  | (Ok g, w) => (g, w)
  | (Raise e, w) => (generated, (report_failure E generated city_key e w).2)
  end.

(** The city's video is made between [w], where the city's turn in the
    loop begins, and [w']: after the progress line, [fetch_forecast] and
    [fetch_nearby_weather] return and [generate_video] returns the path
    of the city's video. *)
Definition produces_video (E : Env) (city_key : string) (w w' : World)
  : Prop :=
  exists forecast nearby w1 w2,
    fetch_forecast E city_key
      (print (nl +:+ "--- Processing " +:+ upper city_key +:+ " ---") w).2
      = (Ok forecast, w1) /\
    fetch_nearby_weather E city_key w1 = (Ok nearby, w2) /\
    generate_video E city_key forecast nearby w2
      = (Ok (join (OUTPUT_DIR E) (output_name city_key)), w').

(** The entry of [generated] a city's turn accounts for. *)
Definition videos_of {A} (E : Env) (city_key : string) (r : result A)
  : list string :=
  if is_ok r then [ join (OUTPUT_DIR E) (output_name city_key) ] else [].


Definition houston_dallas : list NearbyCondition :=
  [ nearby_of "Houston"; nearby_of "Dallas" ].

(** A step is quiet when it always succeeds, leaves the files and stderr
    alone and only adds to stdout; [Q] holds of what it returns. *)
Definition quiet {A} (m : M A) (Q : A -> Prop) : Prop :=
  forall w, exists a w',
    m w = (Ok a, w') /\ Q a /\ fs w' = fs w /\ stderr w' = stderr w /\
    (stdout w `prefix_of` stdout w').

(** From [w] to [w'] the entry at [d] is untouched and no path is lost. *)
Definition keeps (d : string) (w w' : World) : Prop :=
  fs w' !! d = fs w !! d /\
  forall p, is_Some (fs w !! p) -> is_Some (fs w' !! p).

End Observe.

Import Observe.

(** * Properties *)

(** ** Sample runs of the helpers *)

Example py_round_ties :
  py_round 0.5%float = Ok 0 /\ py_round 1.5%float = Ok 2 /\
  py_round 2.5%float = Ok 2 /\ py_round (-1.5)%float = Ok (-2) /\
  py_round 84.75%float = Ok 85.
Proof. repeat split; vm_compute; reflexivity. Qed.

Example strftime_sample :
  strftime_clock12 (at_date 2024 1 10) = "09:05:07 AM" /\
  upper (strftime_date (at_date 2024 1 10)) = "WED JAN 10" /\
  isoformat (at_date 2024 1 10) = "2024-01-10T09:05:07".
Proof. repeat split; vm_compute; reflexivity. Qed.

Example hex_to_rgb_sample : hex_to_rgb "#1a237e" = Ok (26, 35, 126).
Proof. vm_compute. reflexivity. Qed.

Example gradient_sample :
  gradient_channel 126 171 0 480 = 126 /\
  gradient_channel 126 171 32 480 = 129 /\
  gradient_channel 126 171 479 480 = 170.
Proof. repeat split; vm_compute; reflexivity. Qed.

(** Seven items over five days: the first three days in date order, the
    commonest condition of each, the extremes rounded half to even. *)
Example daily_forecasts_sample :
  daily_forecasts sample_fromtimestamp remove_dups sample_items
  = Ok [ {| day_name := "WED"; high := 84; low := 61; condition := "Clear";
            icon := "sun"; description := "Sunny" |};
         {| day_name := "FRI"; high := 52; low := 52; condition := "Clouds";
            icon := "clouds"; description := "Cloudy" |};
         {| day_name := "SAT"; high := 50; low := 50; condition := "Snow";
            icon := "snow"; description := "Snow" |} ].
Proof. vm_compute. reflexivity. Qed.

(** ** The condition table *)

Lemma get_icon_name_miss (c : string) :
  c ∉ CONDITION_ICONS_items.*1 -> get_icon_name c = "clouds".
Proof.
  intros Hc. unfold get_icon_name, CONDITION_ICONS.
  by rewrite (not_elem_of_list_to_map_1 _ _ Hc).
Qed.

(** The provider only ever hands out icons of the five kinds. *)
Lemma get_icon_name_kind (c : string) : get_icon_name c ∈ icon_kinds.
Proof.
  unfold get_icon_name, CONDITION_ICONS.
  destruct (list_to_map CONDITION_ICONS_items !! c) as [i|] eqn:Hi.
  - apply elem_of_list_to_map_2 in Hi.
    unfold CONDITION_ICONS_items in Hi.
    repeat (apply elem_of_cons in Hi as [Hi|Hi];
            [ injection Hi as -> ->; cbn; unfold icon_kinds; set_solver | ]).
    by apply elem_of_nil in Hi.
  - cbn. unfold icon_kinds. set_solver.
Qed.

(** C8: every condition of the table yields the icon the table gives for
    it, and every other string yields "clouds". *)
Theorem get_icon_name_table :
  get_icon_name "Clear" = "sun" /\
  get_icon_name "Clouds" = "clouds" /\
  get_icon_name "Rain" = "rain" /\
  get_icon_name "Drizzle" = "rain" /\
  get_icon_name "Thunderstorm" = "thunderstorm" /\
  get_icon_name "Snow" = "snow" /\
  get_icon_name "Mist" = "clouds" /\
  get_icon_name "Fog" = "clouds" /\
  get_icon_name "Haze" = "clouds" /\
  (forall k v, (k, v) ∈ CONDITION_ICONS_items -> get_icon_name k = v) /\
  (forall c,
     c ∉ [ "Clear"; "Clouds"; "Rain"; "Drizzle"; "Thunderstorm"; "Snow";
           "Mist"; "Fog"; "Haze" ] ->
     get_icon_name c = "clouds").
Proof.
  repeat (split; [ vm_compute; reflexivity | ]).
  split.
  - intros k v Hkv. unfold CONDITION_ICONS_items in Hkv.
    repeat (apply elem_of_cons in Hkv as [Hkv|Hkv];
            [ injection Hkv as -> ->; vm_compute; reflexivity | ]).
    by apply elem_of_nil in Hkv.
  - intros c Hc. by apply get_icon_name_miss.
Qed.

Lemma get_icon_name_table_witness :
  get_icon_name "Drizzle" = "rain" /\ get_icon_name "Tornado" = "clouds".
Proof.
  destruct get_icon_name_table as (_ & _ & _ & _ & _ & _ & _ & _ & _ & Hin & Hout).
  split.
  - apply Hin. apply (bool_decide_unpack _). vm_compute. exact I.
  - apply Hout. apply (bool_decide_unpack _). vm_compute. exact I.
Defined.

(** ** The synthesized forecast and the calendar *)

Lemma weekday_replace_day (now d : datetime) (i : Z) :
  replace_day now (day now + i) = Ok d ->
  weekday d = (weekday now + i) mod 7.
Proof.
  unfold replace_day. case_match; [|done]. intros [= <-].
  unfold weekday, toordinal. cbn.
  rewrite Z.add_mod_idemp_l by lia. f_equal. lia.
Qed.

Lemma replace_day_ok (now : datetime) (n : Z) :
  1 <= n <= days_in_month (year now) (month now) ->
  exists d, replace_day now n = Ok d /\ day d = n /\ month d = month now /\
            year d = year now.
Proof.
  intros Hn. unfold replace_day.
  rewrite andb_true_intro by (split; lia). eauto.
Qed.

Lemma replace_day_raise (now : datetime) (n : Z) :
  days_in_month (year now) (month now) < n ->
  replace_day now n = Raise (ValueError "day is out of range for month").
Proof.
  intros Hn. unfold replace_day.
  replace (n <=? days_in_month (year now) (month now)) with false by lia.
  by rewrite andb_false_r.
Qed.

Lemma fallback_day_ok (c : City) (now : datetime) (i : Z) :
  1 <= day now + i <= days_in_month (year now) (month now) ->
  exists d, fallback_day c now i = Ok d /\
            day_name d = upper (day_abbr ((weekday now + i) mod 7)) /\
            icon d = "clouds".
Proof.
  intros Hi. destruct (replace_day_ok now _ Hi) as (d & Hd & _).
  unfold fallback_day. rewrite Hd. eexists. split; [done|]. cbn.
  unfold strftime_a. by rewrite (weekday_replace_day _ _ _ Hd).
Qed.

Lemma fallback_late (c : City) (now : datetime) :
  1 <= day now <= days_in_month (year now) (month now) ->
  days_in_month (year now) (month now) - 2 < day now ->
  get_fallback_forecast c now
  = Raise (ValueError "day is out of range for month").
Proof.
  intros Hday Hlate. unfold get_fallback_forecast.
  change (range 3) with [0; 1; 2]. cbn [fallback_days].
  destruct (fallback_day_ok c now 0) as (d0 & -> & _); [lia|].
  destruct (decide (day now + 1 <= days_in_month (year now) (month now)))
    as [H1|H1].
  - destruct (fallback_day_ok c now 1) as (d1 & -> & _); [lia|].
    unfold fallback_day at 1. by rewrite replace_day_raise by lia.
  - unfold fallback_day at 1. by rewrite replace_day_raise by lia.
Qed.

Lemma fallback_early (c : City) (now : datetime) :
  1 <= day now <= days_in_month (year now) (month now) ->
  day now + 2 <= days_in_month (year now) (month now) ->
  exists f, get_fallback_forecast c now = Ok f /\
    length (forecasts f) = 3%nat /\
    day_name <$> forecasts f =
      (fun i => upper (day_abbr ((weekday now + i) mod 7))) <$> [0; 1; 2] /\
    (forall d, d ∈ forecasts f -> icon d = "clouds").
Proof.
  intros Hday Hearly. unfold get_fallback_forecast.
  change (range 3) with [0; 1; 2]. cbn [fallback_days].
  destruct (fallback_day_ok c now 0) as (d0 & -> & E0 & I0); [lia|].
  destruct (fallback_day_ok c now 1) as (d1 & -> & E1 & I1); [lia|].
  destruct (fallback_day_ok c now 2) as (d2 & -> & E2 & I2); [lia|].
  eexists. split; [done|]. cbn. rewrite E0, E1, E2.
  split; [done|]. split; [done|].
  intros d Hd. repeat (apply elem_of_cons in Hd as [->|Hd]; [done|]).
  by apply elem_of_nil in Hd.
Qed.

(** C10: the synthesized forecast exists exactly when two days after
    today is still a day of this month.  Then it has three entries, named
    after today's weekday and the two that follow; on the last two days
    of a month the call raises [ValueError] instead. *)
Theorem get_fallback_forecast_month_end (c : City) (now : datetime) :
  valid_datetime now ->
  (day now + 2 <= days_in_month (year now) (month now) ->
   exists f, get_fallback_forecast c now = Ok f /\
     length (forecasts f) = 3%nat /\
     day_name <$> forecasts f =
       (fun i => upper (day_abbr ((weekday now + i) mod 7))) <$> [0; 1; 2]) /\
  (days_in_month (year now) (month now) - 2 < day now ->
   get_fallback_forecast c now =
     Raise (ValueError "day is out of range for month")) /\
  (is_ok (get_fallback_forecast c now) = true <->
   day now + 2 <= days_in_month (year now) (month now)).
Proof.
  intros (_ & _ & Hday & _). split; [|split; [|split]].
  - intros Hearly.
    destruct (fallback_early c now Hday Hearly) as (f & Hf & Hlen & Hnames & _).
    by exists f.
  - by apply fallback_late.
  - intros Hok.
    destruct (decide (day now + 2 <= days_in_month (year now) (month now)));
      [done|].
    rewrite fallback_late in Hok by lia. discriminate.
  - intros Hearly.
    by destruct (fallback_early c now Hday Hearly) as (f & -> & _).
Qed.

Lemma get_fallback_forecast_month_end_witness :
  (exists f, get_fallback_forecast austin_config jan10 = Ok f /\
     day_name <$> forecasts f = [ "WED"; "THU"; "FRI" ]) /\
  get_fallback_forecast austin_config jan30 =
    Raise (ValueError "day is out of range for month").
Proof.
  assert (V10 : valid_datetime jan10) by (vm_compute; intuition discriminate).
  assert (V30 : valid_datetime jan30) by (vm_compute; intuition discriminate).
  destruct (get_fallback_forecast_month_end austin_config jan10 V10)
    as (Hearly & _ & _).
  destruct (get_fallback_forecast_month_end austin_config jan30 V30)
    as (_ & Hlate & _).
  split.
  - destruct Hearly as (f & Hf & _ & Hnames); [vm_compute; discriminate|].
    exists f. split; [exact Hf|]. rewrite Hnames. vm_compute. reflexivity.
  - apply Hlate. vm_compute. reflexivity.
Defined.
(** ** The icons and the forecast cards *)

(** Every entry of the palette parses, so [palette] never falls back. *)
Lemma palette_defined (key h : string) :
  COLORS !! key = Some h ->
  exists r g b, hex_to_rgb h = Ok (r, g, b) /\ palette key = RGB r g b.
Proof.
  intros Hk. unfold COLORS in Hk. apply elem_of_list_to_map_2 in Hk.
  repeat (apply elem_of_cons in Hk as [Hk|Hk];
          [ injection Hk as -> ->; eexists _, _, _;
            split; vm_compute; reflexivity | ]).
  by apply elem_of_nil in Hk.
Qed.

Lemma palette_values :
  palette "card_fill" = RGB 92 107 192 /\
  palette "card_border" = RGB 26 35 126 /\
  palette "bg_dark" = RGB 26 35 126 /\
  palette "bg_light" = RGB 57 73 171 /\
  palette "header_orange" = RGB 255 111 0 /\
  palette "text_yellow" = RGB 255 213 79 /\
  palette "text_white" = RGB 255 255 255 /\
  palette "text_gray" = RGB 176 190 197 /\
  palette "bar_blue" = RGB 40 53 147.
Proof. repeat split; vm_compute; reflexivity. Qed.

Lemma unknown_kind_tests (k : string) :
  k ∉ icon_kinds ->
  String.eqb k "sun" = false /\ String.eqb k "clouds" = false /\
  String.eqb k "rain" = false /\ String.eqb k "thunderstorm" = false /\
  String.eqb k "snow" = false.
Proof.
  intros Hk. repeat split; apply String.eqb_neq; intros ->; apply Hk;
    unfold icon_kinds; set_solver.
Qed.

(** C2 (as the code has it): for an icon kind outside the five known
    ones no branch of [draw_weather_icon] applies, so it issues no
    drawing call and the image stays as it was; nothing is raised. *)
Theorem draw_weather_icon_unknown (img : Image) (cx cy : Z) (k : string) :
  k ∉ icon_kinds ->
  draw_weather_icon cx cy k = [] /\
  draw img (draw_weather_icon cx cy k) = img.
Proof.
  intros Hk. destruct (unknown_kind_tests k Hk) as (H1 & H2 & H3 & H4 & H5).
  assert (Hnil : draw_weather_icon cx cy k = []).
  { unfold draw_weather_icon. by rewrite H1, H2, H3, H4, H5. }
  split; [done|]. rewrite Hnil. destruct img as [m sz ops]. unfold draw. cbn.
  by rewrite app_nil_r.
Qed.

(** C2 fails as stated: "fog" is not one of the five kinds, and drawing
    it on a fresh image leaves the image blank, while "clouds" draws
    three ellipses. *)
Lemma draw_weather_icon_fog_differs :
  ("fog" ∉ icon_kinds) /\
  (draw (Image_new "RGB" (WIDTH, HEIGHT)) (draw_weather_icon 320 240 "fog")
   <> draw (Image_new "RGB" (WIDTH, HEIGHT))
        (draw_weather_icon 320 240 "clouds")).
Proof.
  split.
  - apply (bool_decide_unpack _). vm_compute. exact I.
  - vm_compute. discriminate.
Qed.

Lemma draw_weather_icon_unknown_witness :
  draw_weather_icon 320 240 "fog" = [] /\
  draw (Image_new "RGB" (WIDTH, HEIGHT)) (draw_weather_icon 320 240 "fog")
  = Image_new "RGB" (WIDTH, HEIGHT).
Proof.
  apply draw_weather_icon_unknown. apply (bool_decide_unpack _). vm_compute. exact I.
Defined.

Lemma omap_fmap_none {A B C} (f : B -> option C) (g : A -> B) (l : list A) :
  (forall a, f (g a) = None) -> omap f (g <$> l) = [].
Proof. intros H. induction l as [|a l IH]; cbn; [done|]. by rewrite H. Qed.

Lemma range_step_rain : range_step (-20) 25 15 = [ -20; -5; 10 ].
Proof. vm_compute. reflexivity. Qed.

Lemma range_step_sun : range_step 0 360 45 = [ 0; 45; 90; 135; 180; 225; 270; 315 ].
Proof. vm_compute. reflexivity. Qed.

Lemma card_origins_icon (cx cy : Z) (k : string) :
  card_origins (draw_weather_icon cx cy k) = [].
Proof.
  unfold draw_weather_icon, card_origins.
  rewrite range_step_rain, range_step_sun.
  repeat case_match; reflexivity.
Qed.

Lemma card_origins_gradient (w h : Z) : card_origins (draw_gradient_bg w h) = [].
Proof.
  unfold draw_gradient_bg, card_origins.
  destruct (rgb_of (palette "bg_dark")) as [[tr tg] tb].
  destruct (rgb_of (palette "bg_light")) as [[br bg] bb].
  by apply omap_fmap_none.
Qed.

Lemma card_origins_header P now c r : card_origins (draw_header P now c r) = [].
Proof.
  destruct palette_values as (Hcf & Hcb & Hbd & Hbl & Hho & Hty & Htw & Htg & Hbb).
  unfold draw_header, card_origins. cbn [omap list_omap is_card_rect].
  rewrite Hcf, Hcb, Hbd. reflexivity.
Qed.

Lemma card_origins_bottom P t : card_origins (draw_bottom_bar P t) = [].
Proof. reflexivity. Qed.

Lemma card_origins_card P x y dn ic de hi lo u :
  card_origins (draw_forecast_card P x y dn ic de hi lo u) = [ (x, y) ].
Proof.
  destruct palette_values as (Hcf & Hcb & _).
  unfold draw_forecast_card, card_origins. rewrite !omap_app.
  fold (card_origins (draw_weather_icon (x + card_width / 2) (y + 50 + 40) ic)).
  rewrite card_origins_icon. cbn [omap list_omap is_card_rect app].
  rewrite Hcf, Hcb. reflexivity.
Qed.

Lemma forecast_cards_card_of P f :
  forecast_cards P f = card_of P (unit_symbol f) <$> enumerate (take 3 (forecasts f)).
Proof.
  unfold forecast_cards. apply list_fmap_ext. by intros i [k d] _.
Qed.

Lemma card_origins_cards_from P u (l : list DayForecast) (k : nat) :
  card_origins
    (concat (card_of P u <$> imap (fun i a => (Z.of_nat (k + i), a)) l))
  = (fun i => (30 + 200 * i, 70)) <$> (Z.of_nat <$> seq k (length l)).
Proof.
  revert k. induction l as [|d l IH]; intros k; [done|].
  cbn [imap fmap list_fmap concat length seq].
  unfold card_origins in *. rewrite omap_app.
  fold (card_origins (card_of P u (Z.of_nat (k + 0), d))).
  unfold card_of at 1. rewrite card_origins_card. cbn [fst snd app].
  f_equal.
  - unfold card_start_x, card_spacing, card_y. f_equal. lia.
  - rewrite <- (IH (S k)). do 3 f_equal. apply imap_ext.
    intros i x _. cbn. do 2 f_equal. lia.
Qed.

Lemma card_origins_cards P f :
  card_origins (concat (forecast_cards P f))
  = (fun i => (30 + 200 * i, 70))
      <$> range (Z.of_nat (min (length (forecasts f)) 3)).
Proof.
  rewrite forecast_cards_card_of. unfold enumerate.
  rewrite (imap_ext _ (fun i a => (Z.of_nat (0 + i), a))) by done.
  rewrite card_origins_cards_from. unfold range.
  rewrite Nat2Z.id, length_take. by rewrite Nat.min_comm.
Qed.

Lemma forecast_frame_ops P now f :
  img_ops (forecast_frame_at P now f)
  = draw_gradient_bg WIDTH HEIGHT ++ draw_header P now (city f) (region f)
    ++ concat (forecast_cards P f)
    ++ draw_bottom_bar P "BAROMETRIC PRESSURE: 30.03 IN.".
Proof.
  unfold forecast_frame_at, draw, Image_new. cbn [img_ops app].
  by rewrite <- !app_assoc.
Qed.

(** C6: a forecast with K days yields min(K, 3) cards; the card
    backgrounds found in the finished frame sit at x = 30, 230, 430 and
    y = 70, in this order; card i is drawn from day i; the days after
    the third do not reach the frame, and composing never fails. *)
Theorem forecast_frame_cards (P : Platform) (now : datetime) (f : Forecast) :
  length (forecast_cards P f) = min (length (forecasts f)) 3 /\
  card_origins (img_ops (forecast_frame_at P now f))
    = (fun i => (30 + 200 * i, 70))
        <$> range (Z.of_nat (min (length (forecasts f)) 3)) /\
  (forall i d, (i < 3)%nat -> forecasts f !! i = Some d ->
     forecast_cards P f !! i
     = Some (draw_forecast_card P (30 + 200 * Z.of_nat i) 70
               (day_name d) (icon d) (description d) (high d) (low d)
               (unit_symbol f))) /\
  forecast_frame_at P now f
    = forecast_frame_at P now (with_days f (take 3 (forecasts f))) /\
  (forall E w, exists img w',
     generate_forecast_frame E f w = (Ok img, w') /\
     card_origins (img_ops img)
       = (fun i => (30 + 200 * i, 70))
           <$> range (Z.of_nat (min (length (forecasts f)) 3))).
Proof.
  assert (Horig : forall P now,
    card_origins (img_ops (forecast_frame_at P now f))
    = (fun i => (30 + 200 * i, 70))
        <$> range (Z.of_nat (min (length (forecasts f)) 3))).
  { intros P' now'. rewrite forecast_frame_ops. unfold card_origins.
    rewrite !omap_app.
    fold (card_origins (draw_gradient_bg WIDTH HEIGHT)).
    fold (card_origins (draw_header P' now' (city f) (region f))).
    fold (card_origins (concat (forecast_cards P' f))).
    fold (card_origins (draw_bottom_bar P' "BAROMETRIC PRESSURE: 30.03 IN.")).
    rewrite card_origins_gradient, card_origins_header, card_origins_cards,
      card_origins_bottom.
    by rewrite app_nil_r. }
  repeat split.
  - rewrite forecast_cards_card_of, length_fmap. unfold enumerate.
    rewrite length_imap, length_take. apply Nat.min_comm.
  - apply Horig.
  - intros i d Hi Hd. rewrite forecast_cards_card_of, list_lookup_fmap.
    unfold enumerate. rewrite list_lookup_imap, lookup_take_lt by done.
    rewrite Hd.
    change (Some (card_of P (unit_symbol f) (Z.of_nat i, d)) = Some
      (draw_forecast_card P (30 + 200 * Z.of_nat i) 70 (day_name d) (icon d)
         (description d) (high d) (low d) (unit_symbol f))).
    unfold card_of, card_start_x, card_spacing, card_y. cbn [fst snd].
    by replace (30 + Z.of_nat i * 200) with (30 + 200 * Z.of_nat i) by lia.
  - unfold forecast_frame_at, forecast_cards, with_days. cbn.
    by rewrite take_take.
  - intros E w. eexists _, _. split; [reflexivity|]. apply Horig.
Qed.

Lemma forecast_frame_cards_witness :
  forecast_cards bare test_forecast !! 1%nat
  = Some (draw_forecast_card bare 230 70 "THU" "thunderstorm" "T'storms"
            84 61 "°F").
Proof.
  destruct (forecast_frame_cards bare jan10 test_forecast)
    as (_ & _ & Hcard & _).
  apply (Hcard 1%nat thursday); [lia | reflexivity].
Defined.

(** ** The cycling highlight of the map *)

Lemma highlight_icon (cx cy : Z) (k : string) :
  marked_highlighted (draw_weather_icon cx cy k) = false.
Proof.
  unfold draw_weather_icon, marked_highlighted.
  rewrite range_step_rain, range_step_sun.
  repeat case_match; reflexivity.
Qed.

Lemma map_entry_highlight P (positions : gmap string (Z * Z)) hl i e :
  marked_highlighted (map_entry P positions hl i e) = true
  <-> is_Some (positions !! name e) /\ i = hl - 1.
Proof.
  destruct palette_values as (_ & _ & _ & _ & _ & Hty & Htw & _).
  unfold map_entry. destruct (positions !! name e) as [[x y]|] eqn:Hpos.
  - unfold marked_highlighted. rewrite existsb_app, orb_true_iff.
    fold (marked_highlighted (draw_weather_icon x y (n_icon e))).
    rewrite highlight_icon. cbn [existsb is_highlight_text].
    destruct (decide (i = hl - 1)) as [Heq|Hne].
    + rewrite bool_decide_eq_true_2 by done. rewrite Hty. cbn.
      split; [intros _; split; [by eexists|done] | by right].
    + rewrite bool_decide_eq_false_2 by done. rewrite Htw, Hty. cbn.
      split; [intros [?|?]; discriminate | intros [_ ?]; done].
  - cbn. split; [discriminate | intros [[? ?] _]; discriminate].
Qed.

Lemma map_entries_lookup P city_key nearby frame_num (i : nat) e :
  nearby !! i = Some e ->
  map_entries P city_key nearby frame_num !! i
  = Some (map_entry P (positions_for city_key)
            (highlight_idx nearby frame_num) (Z.of_nat i) e).
Proof.
  intros He. unfold map_entries, enumerate.
  by rewrite list_lookup_fmap, list_lookup_imap, He.
Qed.

Lemma map_entries_lookup_inv P city_key nearby frame_num (i : nat) ops :
  map_entries P city_key nearby frame_num !! i = Some ops ->
  exists e, nearby !! i = Some e /\
    ops = map_entry P (positions_for city_key)
            (highlight_idx nearby frame_num) (Z.of_nat i) e.
Proof.
  unfold map_entries, enumerate.
  rewrite list_lookup_fmap, list_lookup_imap.
  destruct (nearby !! i) as [e|]; [|done]. cbn. intros [= <-]. eauto.
Qed.

(** C4 (as the code has it): among the entries that are drawn, that is
    those whose name has a position, entry i is highlighted exactly when
    i = frame_num mod (M + 1) - 1.  So nothing is highlighted when
    frame_num mod (M + 1) = 0, never more than one entry is, exactly one
    is when every name has a position and frame_num mod (M + 1) <> 0,
    and the index moves on by one, modulo M + 1, with frame_num. *)
Theorem map_highlight_cycle (P : Platform) (city_key : string)
    (nearby : list NearbyCondition) (frame_num : Z) :
  let M := Z.of_nat (length nearby) in
  let entries := map_entries P city_key nearby frame_num in
  (forall (i : nat) e, nearby !! i = Some e ->
     exists ops, entries !! i = Some ops /\
       (marked_highlighted ops = true <->
        is_Some (positions_for city_key !! name e) /\
        Z.of_nat i = frame_num mod (M + 1) - 1)) /\
  (frame_num mod (M + 1) = 0 ->
   forall ops, ops ∈ entries -> marked_highlighted ops = false) /\
  (forall (i j : nat) a b, entries !! i = Some a -> entries !! j = Some b ->
     marked_highlighted a = true -> marked_highlighted b = true -> i = j) /\
  (frame_num mod (M + 1) <> 0 ->
   (forall e, e ∈ nearby -> is_Some (positions_for city_key !! name e)) ->
   exists (i : nat) ops, entries !! i = Some ops /\
     marked_highlighted ops = true /\
     Z.of_nat i = frame_num mod (M + 1) - 1) /\
  highlight_idx nearby (frame_num + 1)
    = (highlight_idx nearby frame_num + 1) mod (M + 1).
Proof.
  intros M entries. subst entries.
  assert (HM : 0 < M + 1) by lia.
  pose proof (Z.mod_pos_bound frame_num (M + 1) HM) as Hb.
  repeat split.
  - intros i e He. eexists. split; [by apply map_entries_lookup|].
    apply map_entry_highlight.
  - intros H0 ops Hin. apply list_elem_of_lookup in Hin as [i Hi].
    apply map_entries_lookup_inv in Hi as (e & He & ->).
    apply not_true_is_false. rewrite map_entry_highlight.
    unfold highlight_idx. fold M. intros [_ Hi]. lia.
  - intros i j a b Ha Hb' Hma Hmb.
    apply map_entries_lookup_inv in Ha as (ea & _ & ->).
    apply map_entries_lookup_inv in Hb' as (eb & _ & ->).
    apply map_entry_highlight in Hma as [_ Hi].
    apply map_entry_highlight in Hmb as [_ Hj]. lia.
  - intros Hne Hknown.
    destruct (lookup_lt_is_Some_2 nearby (Z.to_nat (frame_num mod (M + 1) - 1)))
      as [e He]; [subst M; lia|].
    exists (Z.to_nat (frame_num mod (M + 1) - 1)). eexists.
    split; [by apply map_entries_lookup|]. split; [|lia].
    apply map_entry_highlight. split.
    + apply Hknown. by eapply list_elem_of_lookup_2.
    + unfold highlight_idx. fold M. lia.
  - unfold highlight_idx. fold M. by rewrite Z.add_mod_idemp_l by lia.
Qed.

Lemma map_highlight_cycle_witness :
  exists ops,
    map_entries bare "austin" [ nearby_of "Houston"; nearby_of "Dallas" ] 2
      !! 1%nat = Some ops /\
    marked_highlighted ops = true.
Proof.
  destruct (map_highlight_cycle bare "austin"
              [ nearby_of "Houston"; nearby_of "Dallas" ] 2)
    as (Hiff & _).
  destruct (Hiff 1%nat (nearby_of "Dallas")) as (ops & Hops & Hmark);
    [reflexivity|].
  exists ops. split; [exact Hops|]. apply Hmark. split.
  - vm_compute. eexists. reflexivity.
  - vm_compute. reflexivity.
Defined.

(** C4 fails as stated: with the single entry "Unknown City" and frame 1,
    entry 0 has the highlight index and 1 mod 2 is not 0, yet no entry is
    highlighted, because the entry has no position and is skipped. *)
Lemma highlight_skips_unknown_city :
  let nearby := [ nearby_of "Unknown City" ] in
  Z.of_nat 0 = 1 mod (Z.of_nat (length nearby) + 1) - 1 /\
  1 mod (Z.of_nat (length nearby) + 1) <> 0 /\
  forall ops, ops ∈ map_entries bare "austin" nearby 1 ->
    marked_highlighted ops = false.
Proof.
  cbn zeta. split; [reflexivity|]. split; [discriminate|].
  intros ops Hin. vm_compute in Hin.
  apply list_elem_of_singleton in Hin as ->. reflexivity.
Qed.

(** ** Running the scripts *)

Lemma bind_run {A B} (m : M A) (k : A -> M B) (w : World) :
  (m ≫= k) w
  = match m w with
    | (Ok a, w') => k a w'
    | (Raise e, w') => (Raise e, w')
    end.
Proof. reflexivity. Qed.

Lemma ret_run {A} (a : A) (w : World) : @mret M _ A a w = (Ok a, w).
Proof. reflexivity. Qed.

Lemma bind_ok_inv {A B} (m : M A) (k : A -> M B) (w w' : World) (b : B) :
  (m ≫= k) w = (Ok b, w') ->
  exists a w1, m w = (Ok a, w1) /\ k a w1 = (Ok b, w').
Proof.
  rewrite bind_run. destruct (m w) as [[a|e] w1]; [eauto | discriminate].
Qed.

Lemma for_each_ok {A B} (l : list A) (body : A -> M B) (g : A -> B) (w : World) :
  (forall a w, exists w', body a w = (Ok (g a), w')) ->
  exists w', for_each l body w = (Ok (g <$> l), w').
Proof.
  intros Hbody. revert w. induction l as [|a l IH]; intros w.
  - by exists w.
  - cbn [for_each]. rewrite bind_run.
    destruct (Hbody a w) as [w1 ->].
    rewrite bind_run. destruct (IH w1) as [w2 ->]. by exists w2.
Qed.

Lemma range_10 : range 10 = [ 0; 1; 2; 3; 4; 5; 6; 7; 8; 9 ].
Proof. vm_compute. reflexivity. Qed.

Lemma append_cons (x : ascii) (a b : string) :
  String x a +:+ b = String x (a +:+ b).
Proof. reflexivity. Qed.

Lemma append_assoc (a b c : string) : (a +:+ b) +:+ c = a +:+ (b +:+ c).
Proof.
  induction a as [|x a IH]; [done|]. rewrite !append_cons. by rewrite IH.
Qed.

Lemma length_append (a b : string) :
  String.length (a +:+ b) = (String.length a + String.length b)%nat.
Proof.
  induction a as [|x a IH]; [done|]. rewrite append_cons. cbn. by rewrite IH.
Qed.

Lemma append_cancel (a x y : string) : a +:+ x = a +:+ y -> x = y.
Proof.
  induction a as [|c a IH]; [done|]. rewrite !append_cons. intros [= H]. auto.
Qed.

Lemma join_ne_parent (d c : string) : join d c <> d.
Proof.
  intros H. apply (f_equal String.length) in H. unfold join in H.
  rewrite !length_append in H. cbn in H. lia.
Qed.

Lemma output_ne_temp E city_key :
  join (OUTPUT_DIR E) (output_name city_key) <> temp_dir E city_key.
Proof.
  unfold temp_dir, join. intros H. do 2 apply append_cancel in H.
  unfold output_name in H.
  destruct (String.eqb city_key "austin"); vm_compute in H; discriminate.
Qed.

Lemma output_ne_temp_child E city_key c :
  join (OUTPUT_DIR E) (output_name city_key) <> join (temp_dir E city_key) c.
Proof.
  unfold temp_dir, join. rewrite !append_assoc. intros H.
  do 2 apply append_cancel in H.
  unfold output_name in H.
  destruct (String.eqb city_key "austin"); vm_compute in H; discriminate.
Qed.

Lemma keeps_refl d w : keeps d w w.
Proof. by split. Qed.

Lemma keeps_trans d w1 w2 w3 : keeps d w1 w2 -> keeps d w2 w3 -> keeps d w1 w3.
Proof. intros [E1 M1] [E2 M2]. split; [congruence | auto]. Qed.

Lemma write_file_run p f w :
  write_file p f w = (Ok tt, set_fs (<[p := File f]> (fs w)) w).
Proof. reflexivity. Qed.

Lemma insert_keeps_from d p n w w0 :
  fs w0 = fs w -> p <> d -> keeps d w (set_fs (<[p := n]> (fs w0)) w0).
Proof.
  intros Hfs Hne. split; cbn; rewrite Hfs.
  - by rewrite lookup_insert_ne.
  - intros q Hq. destruct (decide (p = q)) as [->|Hpq].
    + rewrite lookup_insert_eq. by eexists.
    + by rewrite lookup_insert_ne.
Qed.

Lemma insert_keeps d p n w :
  p <> d -> keeps d w (set_fs (<[p := n]> (fs w)) w).
Proof. by apply insert_keeps_from. Qed.

Lemma for_each_writes {A} (d : string) (l : list A) (path : A -> string)
    (content : A -> file) (w : World) :
  (forall a, path a <> d) ->
  exists w',
    for_each l (fun a => write_file (path a) (content a) ;; mret (path a)) w
      = (Ok (path <$> l), w') /\
    keeps d w w' /\
    forall a, a ∈ l -> is_Some (fs w' !! path a).
Proof.
  intros Hne. revert w. induction l as [|a l IH]; intros w.
  - exists w. split; [done|]. split; [apply keeps_refl|].
    intros a Ha. by apply elem_of_nil in Ha.
  - cbn [for_each]. rewrite !bind_run, write_file_run. cbv beta iota.
    rewrite ret_run. cbv beta iota. rewrite bind_run.
    destruct (IH (set_fs (<[path a := File (content a)]> (fs w)) w))
      as (w' & -> & Hkeep & Hall).
    exists w'. split; [done|]. split.
    + eapply keeps_trans; [by apply insert_keeps | done].
    + intros b Hb. apply elem_of_cons in Hb as [->|Hb]; [|by apply Hall].
      apply Hkeep. cbn. rewrite lookup_insert_eq. by eexists.
Qed.

Lemma write_frames_ok E city_key forecast nearby w :
  exists w',
    write_frames E city_key forecast nearby w
      = (Ok (frame_path E city_key <$> range 10), w') /\
    fs w' !! join (temp_dir E city_key) "concat.txt"
      = Some (File (TextFile (render <$>
          concat_directives (join (temp_dir E city_key) "forecast.png")
            (frame_path E city_key <$> range 10)
            (frame_path E city_key 9)))) /\
    keeps (temp_dir E city_key) w w' /\
    is_Some (fs w' !! join (temp_dir E city_key) "forecast.png") /\
    (forall i, i ∈ range 10 -> is_Some (fs w' !! frame_path E city_key i)).
Proof.
  unfold write_frames. rewrite bind_run.
  unfold generate_forecast_frame at 1. rewrite bind_run. cbn [datetime_now].
  rewrite ret_run. cbv beta iota.
  rewrite bind_run, write_file_run. cbv beta iota. rewrite bind_run.
  match goal with |- context [for_each _ _ ?w0] =>
    destruct (for_each_writes (temp_dir E city_key) (range 10)
                (frame_path E city_key)
                (fun i => PngFile
                   (generate_map_frame (platform E) city_key nearby i)) w0)
      as (w1 & Hw1 & Hkeep & Hall)
  end.
  { intros i. apply join_ne_parent. }
  rewrite Hw1. cbv beta iota.
  rewrite range_10. cbn [fmap list_fmap last].
  rewrite bind_run, write_file_run. cbv beta iota. rewrite ret_run.
  eexists. split; [reflexivity|].
  match goal with |- context [set_fs (<[?p := ?n]> (fs w1)) w1] =>
    pose proof (insert_keeps (temp_dir E city_key) p n w1
                  (join_ne_parent _ _)) as Hlast
  end.
  split; [cbn; by rewrite lookup_insert_eq|].
  split; [|split].
  - eapply keeps_trans; [|eapply keeps_trans; [exact Hkeep | apply Hlast]].
    apply insert_keeps_from; [reflexivity | apply join_ne_parent].
  - apply Hlast, Hkeep. cbn. rewrite lookup_insert_eq. by eexists.
  - intros i Hi. apply Hlast, Hall. by rewrite range_10.
Qed.

(** ** Determinism of frame composition *)











(** ** Transient frame storage *)

(** C1, at an input where the code departs from it: ffmpeg exits with
    status 1; [generate_video] re-raises the [CalledProcessError] before
    it reaches [shutil.rmtree], so the temp directory, the frames and
    the concat file are all still there when the run ends. *)
Theorem generate_video_failure_leaves_frames :
  let run := generate_video (offline jan10 failing_encoder) "austin"
               test_forecast houston_dallas empty_world in
  run.1 = Raise (CalledProcessError 1
                   (ffmpeg_cmd "/app/output/temp_austin/concat.txt"
                      "/app/output/ATXweather.mp4")
                   "Unknown encoder 'libx264'") /\
  fs run.2 !! "/app/output/temp_austin" = Some Dir /\
  is_Some (fs run.2 !! "/app/output/temp_austin/forecast.png") /\
  is_Some (fs run.2 !! "/app/output/temp_austin/map_000.png") /\
  is_Some (fs run.2 !! "/app/output/temp_austin/map_009.png") /\
  is_Some (fs run.2 !! "/app/output/temp_austin/concat.txt").
Proof.
  cbv zeta. vm_compute. repeat split; eexists; reflexivity.
Qed.

(** The same call with a working encoder: only the video is left. *)
Lemma generate_video_success_removes_frames :
  generate_video (offline jan10 working_encoder) "austin"
    test_forecast houston_dallas empty_world
  = (Ok "/app/output/ATXweather.mp4",
     {| fs := {[ "/app/output/ATXweather.mp4" := File (DataFile "mp4") ]};
        stdout := [ "Generating ATXweather.mp4...";
                    "✓ Generated /app/output/ATXweather.mp4" ];
        stderr := []; clock_reads := 1; timer_reads := 0 |}).
Proof. vm_compute. reflexivity. Qed.

Lemma mkdir_run d w r w' :
  mkdir_exist_ok d w = (r, w') ->
  (r = Ok tt /\ fs w' !! d = Some Dir /\ stdout w' = stdout w) \/
  (r = Raise (FileExistsError d) /\ w' = w).
Proof.
  unfold mkdir_exist_ok. destruct (fs w !! d) as [[|f]|] eqn:Hd; intros [= <- <-].
  - left. done.
  - right. done.
  - left. cbn. by rewrite lookup_insert_eq.
Qed.

Lemma rmtree_ok d w w' :
  rmtree d w = (Ok tt, w') ->
  forall p, under d p = true -> fs w' !! p = None.
Proof.
  unfold rmtree. destruct (fs w !! d) as [[|f]|]; [|discriminate..].
  intros [= <-] p Hp. cbn. apply map_lookup_filter_None. right.
  intros n _. cbn. rewrite Hp. cbn. tauto.
Qed.

(** How a run of [generate_video] can end.  When it returns, nothing is
    left at or below the temp directory; when it ends with the encoder's
    [CalledProcessError], the directory, the eleven frames and the
    concat file are all still there. *)
Lemma generate_video_outcomes E city_key forecast nearby w r w' :
  generate_video E city_key forecast nearby w = (r, w') ->
  match r with
  | Ok out =>
      out = join (OUTPUT_DIR E) (output_name city_key) /\
      forall p, under (temp_dir E city_key) p = true -> fs w' !! p = None
  | Raise (CalledProcessError rc _ err) =>
      rc <> 0 /\
      fs w' !! temp_dir E city_key = Some Dir /\
      is_Some (fs w' !! join (temp_dir E city_key) "forecast.png") /\
      (forall i, i ∈ range 10 ->
         is_Some (fs w' !! frame_path E city_key i)) /\
      fs w' !! join (temp_dir E city_key) "concat.txt"
        = Some (File (TextFile (render <$>
            concat_directives (join (temp_dir E city_key) "forecast.png")
              (frame_path E city_key <$> range 10)
              (frame_path E city_key 9))))
  | Raise _ => True
  end.
Proof.
  unfold generate_video. rewrite bind_run.
  destruct (mkdir_exist_ok (temp_dir E city_key) w) as [r0 w0] eqn:Hmk.
  apply mkdir_run in Hmk as [(-> & Hdir & _)|(-> & ->)];
    [|by intros [= <- <-]].
  rewrite bind_run. unfold print at 1. cbv beta iota.
  rewrite bind_run.
  match goal with |- context [write_frames _ _ _ _ ?w1] =>
    destruct (write_frames_ok E city_key forecast nearby w1)
      as (w2 & -> & Hconcat & [Hkeep Hmono] & Hforecast & Hframes)
  end.
  cbn [fs] in Hkeep. rewrite Hdir in Hkeep.
  rewrite bind_run. unfold try_except. rewrite bind_run.
  unfold subprocess_run.
  destruct (ffmpeg E _ (fs w2)) as [rc err written|].
  2:{ intros [= <- <-]. exact I. }
  set (w3 := match written with
             | Some data => set_fs _ w2
             | None => w2
             end).
  assert (H3 : keeps (temp_dir E city_key) w2 w3).
  { subst w3. destruct written as [data|]; [|apply keeps_refl].
    apply insert_keeps, output_ne_temp. }
  destruct H3 as [Hkeep3 Hmono3].
  assert (Hconcat3 : fs w3 !! join (temp_dir E city_key) "concat.txt"
                     = fs w2 !! join (temp_dir E city_key) "concat.txt").
  { subst w3. destruct written as [data|]; [|done]. cbn.
    apply lookup_insert_ne, output_ne_temp_child. }
  destruct (rc =? 0) eqn:Hrc.
  - unfold print at 1. cbv beta iota. rewrite bind_run.
    destruct (rmtree (temp_dir E city_key) _) as [[[]|e] w4] eqn:Hrm.
    + rewrite ret_run. intros [= <- <-]. split; [done|].
      by eapply rmtree_ok.
    + intros [= <- <-]. unfold rmtree in Hrm.
      repeat case_match; simplify_eq; exact I.
  - rewrite bind_run. unfold print at 1. cbv beta iota.
    unfold raise. intros [= <- <-]. cbn [fs].
    split; [lia|]. split; [congruence|].
    split; [by apply Hmono3|]. split; [by intros i Hi; apply Hmono3, Hframes|].
    by rewrite Hconcat3.
Qed.

(** ** The render plan *)

(** C5: the concat file [generate_video] writes before it calls the
    encoder lists the forecast frame for 10 seconds, then the ten map
    frames map_000 to map_009 for 1 second each, then map_009 once more
    without a duration; the durations add up to 20 seconds.  A run that
    the encoder fails leaves exactly this file behind. *)
Theorem render_plan_durations (E : Env) (city_key : string)
    (forecast : Forecast) (nearby : list NearbyCondition) (w : World) :
  let forecast_path := join (temp_dir E city_key) "forecast.png" in
  let frames := frame_path E city_key <$> range 10 in
  let ds := concat_directives forecast_path frames (frame_path E city_key 9) in
  (exists w',
     write_frames E city_key forecast nearby w = (Ok frames, w') /\
     fs w' !! join (temp_dir E city_key) "concat.txt"
       = Some (File (TextFile (render <$> ds)))) /\
  (forall rc cmd err w',
     generate_video E city_key forecast nearby w
       = (Raise (CalledProcessError rc cmd err), w') ->
     fs w' !! join (temp_dir E city_key) "concat.txt"
       = Some (File (TextFile (render <$> ds)))) /\
  plan_of ds
    = (forecast_path, Some 10)
      :: ((fun i => (frame_path E city_key i, Some 1)) <$> range 10)
      ++ [ (frame_path E city_key 9, None) ] /\
  length frames = 10%nat /\
  total_duration ds = 20.
Proof.
  cbv zeta. split; [|split].
  - destruct (write_frames_ok E city_key forecast nearby w)
      as (w' & Hrun & Hfile & _).
    by exists w'.
  - intros rc cmd err w' Hrun.
    by destruct (generate_video_outcomes _ _ _ _ _ _ _ Hrun) as (_ & _ & _ & _ & H).
  - rewrite range_10. repeat split.
Qed.

Lemma render_plan_durations_witness :
  fs (generate_video (offline jan10 failing_encoder) "austin" test_forecast
        houston_dallas empty_world).2
    !! "/app/output/temp_austin/concat.txt"
  = Some (File (TextFile (render <$>
      concat_directives "/app/output/temp_austin/forecast.png"
        (frame_path (offline jan10 failing_encoder) "austin" <$> range 10)
        "/app/output/temp_austin/map_009.png"))).
Proof.
  destruct (render_plan_durations (offline jan10 failing_encoder) "austin"
              test_forecast houston_dallas empty_world) as (_ & Hfail & _).
  apply (Hfail 1 (ffmpeg_cmd "/app/output/temp_austin/concat.txt"
                    "/app/output/ATXweather.mp4")
           "Unknown encoder 'libx264'").
  vm_compute. reflexivity.
Defined.

(** ** The provider at the end of a month *)

(** C3, at an input where the code departs from it: the request fails,
    there is no cache file and today is 31 January; the synthesized
    forecast asks for 32 January and [fetch_forecast] raises
    [ValueError] to its caller. *)
Theorem fetch_forecast_raises_at_month_end :
  (fetch_forecast (offline jan31 working_encoder) "austin" empty_world).1
  = Raise (ValueError "day is out of range for month").
Proof. vm_compute. reflexivity. Qed.

Lemma result_bind_ok_inv {A B} (r : result A) (k : A -> result B) (b : B) :
  r ≫= k = Ok b -> exists a, r = Ok a /\ k a = Ok b.
Proof. destruct r as [a|e]; [eauto | discriminate]. Qed.

Lemma result_map_ok {A B} (f : A -> result B) (l : list A) (bs : list B) :
  result_map f l = Ok bs ->
  length bs = length l /\
  forall b, b ∈ bs -> exists a, a ∈ l /\ f a = Ok b.
Proof.
  revert bs. induction l as [|a l IH]; intros bs; cbn [result_map].
  - intros [= <-]. split; [done|]. intros b Hb. by apply elem_of_nil in Hb.
  - intros H. apply result_bind_ok_inv in H as (b0 & Hb0 & H).
    apply result_bind_ok_inv in H as (bs0 & Hbs0 & [= <-]).
    destruct (IH _ Hbs0) as [Hlen Hall]. split; [cbn; by rewrite Hlen|].
    intros b Hb. apply elem_of_cons in Hb as [->|Hb].
    + exists a. split; [apply list_elem_of_here | done].
    + destruct (Hall b Hb) as (a' & Ha' & Hfa').
      exists a'. split; [by apply list_elem_of_further | done].
Qed.

Lemma daily_icon set_order day d :
  daily set_order day = Ok d -> icon d ∈ icon_kinds.
Proof.
  unfold daily. intros H.
  apply result_bind_ok_inv in H as (cond & _ & H).
  apply result_bind_ok_inv in H as (hi & _ & H).
  apply result_bind_ok_inv in H as (lo & _ & [= <-]).
  apply get_icon_name_kind.
Qed.

(** What [process_forecast] makes of an answer has at most three days,
    each with an icon of the five kinds. *)
Lemma daily_forecasts_shape fromtimestamp set_order data days :
  daily_forecasts fromtimestamp set_order data = Ok days ->
  (length days <= 3)%nat /\ forall d, d ∈ days -> icon d ∈ icon_kinds.
Proof.
  unfold daily_forecasts. intros H.
  apply result_map_ok in H as [Hlen Hall]. split.
  - rewrite Hlen, length_take. lia.
  - intros d Hd. destruct (Hall d Hd) as (k & _ & Hk).
    destruct (_ !! k) as [day|]; [|discriminate]. by eapply daily_icon.
Qed.

Lemma get_fallback_forecast_shape c now f :
  get_fallback_forecast c now = Ok f ->
  length (forecasts f) = 3%nat /\ forall d, d ∈ forecasts f -> icon d = "clouds".
Proof.
  unfold get_fallback_forecast.
  destruct (fallback_days c now (range 3)) as [days|e] eqn:Hdays; [|discriminate].
  intros [= <-]. cbn [forecasts]. revert Hdays.
  change (range 3) with [0; 1; 2]. cbn [fallback_days].
  unfold fallback_day.
  destruct (replace_day now (day now + 0)); [|discriminate].
  destruct (replace_day now (day now + 1)); [|discriminate].
  destruct (replace_day now (day now + 2)); [|discriminate].
  intros [= <-]. split; [done|].
  intros d Hd. repeat (apply elem_of_cons in Hd as [->|Hd]; [done|]).
  by apply elem_of_nil in Hd.
Qed.

Lemma lift_run {A} (r : result A) (w : World) : lift r w = (r, w).
Proof. reflexivity. Qed.

(** The paths through [fetch_forecast]: fresh data, then the cache, then
    the synthesized forecast. *)
Lemma fetch_forecast_paths E city_key c w :
  CITIES !! city_key = Some c ->
  let cache_file := join (CACHE_DIR E) (city_key +:+ "_forecast.json") in
  let fresh := forecast_request E city_key
               ≫= daily_forecasts (fromtimestamp E) (set_order E) in
  (forall days, fresh = Ok days ->
     exists f w', fetch_forecast E city_key w = (Ok f, w') /\
       forecasts f = days /\
       fs w' !! cache_file = Some (File (JsonFile f))) /\
  (forall e f, fresh = Raise e ->
     fs w !! cache_file = Some (File (JsonFile f)) ->
     (fetch_forecast E city_key w).1 = Ok f) /\
  (forall e, fresh = Raise e ->
     fs w !! cache_file = None ->
     (fetch_forecast E city_key w).1
     = get_fallback_forecast c (clock E (clock_reads w))).
Proof.
  intros Hc cache_file fresh. unfold fetch_forecast, lookup_city.
  rewrite Hc. rewrite bind_run, ret_run. cbv beta iota. fold cache_file.
  assert (Htry : forall e, fresh = Raise e ->
    exists e', forall k : Forecast -> M Forecast,
      ((data ← lift (forecast_request E city_key);
        forecast ← process_forecast E data c; k forecast) : M Forecast) w
      = (Raise e', w)).
  { intros e He. subst fresh.
    destruct (forecast_request E city_key) as [data|e0] eqn:Hreq.
    - cbn in He. exists e. intros k. rewrite bind_run, lift_run.
      cbv beta iota. unfold process_forecast. rewrite !bind_run, lift_run.
      by rewrite He.
    - exists e0. intros k. by rewrite bind_run, lift_run. }
  unfold try_except. repeat split.
  - intros days Hdays. subst fresh.
    destruct (forecast_request E city_key) as [data|e0]; [|discriminate].
    cbn in Hdays. rewrite bind_run, lift_run. cbv beta iota.
    unfold process_forecast. rewrite !bind_run, lift_run, Hdays.
    cbv beta iota. rewrite bind_run. cbn [datetime_now].
    rewrite ret_run. cbv beta iota.
    rewrite bind_run, write_file_run. cbv beta iota.
    rewrite bind_run. unfold print at 1. cbv beta iota. rewrite ret_run.
    eexists _, _. split; [reflexivity|]. split; [done|].
    cbn. by rewrite lookup_insert_eq.
  - intros e f He Hcache. destruct (Htry e He) as [e' ->].
    rewrite bind_run. unfold print at 1. cbv beta iota.
    rewrite bind_run. unfold exists_. cbn [fs]. rewrite Hcache.
    rewrite bool_decide_eq_true_2 by by eexists.
    rewrite bind_run. unfold print at 1. cbv beta iota.
    unfold json_load. cbn [fs]. by rewrite Hcache.
  - intros e He Hcache. destruct (Htry e He) as [e' ->].
    rewrite bind_run. unfold print at 1. cbv beta iota.
    rewrite bind_run. unfold exists_. cbn [fs]. rewrite Hcache.
    rewrite bool_decide_eq_false_2 by (intros [? ?]; discriminate).
    rewrite bind_run. cbn [datetime_now clock_reads]. by rewrite lift_run.
Qed.

(** Without a cache file, whatever [fetch_forecast] returns has at most
    three days, each with an icon of the five kinds. *)
Lemma fetch_forecast_shape E city_key w f :
  fs w !! join (CACHE_DIR E) (city_key +:+ "_forecast.json") = None ->
  (fetch_forecast E city_key w).1 = Ok f ->
  (length (forecasts f) <= 3)%nat /\
  forall d, d ∈ forecasts f -> icon d ∈ icon_kinds.
Proof.
  intros Hcache Hf.
  destruct (CITIES !! city_key) as [c|] eqn:Hc.
  2:{ unfold fetch_forecast, lookup_city in Hf. by rewrite Hc in Hf. }
  destruct (fetch_forecast_paths E city_key c w Hc) as (Hfresh & _ & Hfall).
  destruct (forecast_request E city_key
            ≫= daily_forecasts (fromtimestamp E) (set_order E))
    as [days|e] eqn:Hdays.
  - destruct (Hfresh days eq_refl) as (f' & w' & Hrun & Hdaysf & _).
    rewrite Hrun in Hf. injection Hf as ->. rewrite Hdaysf.
    destruct (forecast_request E city_key) as [data|]; [|discriminate].
    by eapply daily_forecasts_shape.
  - rewrite (Hfall e eq_refl Hcache) in Hf.
    apply get_fallback_forecast_shape in Hf as [Hlen Hicons].
    split; [lia|]. intros d Hd. rewrite (Hicons d Hd).
    unfold icon_kinds. set_solver.
Qed.

(** Whenever the request fails, nothing is cached and the month has at
    most one day left, [fetch_forecast] raises. *)
Lemma fetch_forecast_month_end E city_key c w e :
  CITIES !! city_key = Some c ->
  forecast_request E city_key = Raise e ->
  fs w !! join (CACHE_DIR E) (city_key +:+ "_forecast.json") = None ->
  valid_datetime (clock E (clock_reads w)) ->
  days_in_month (year (clock E (clock_reads w)))
    (month (clock E (clock_reads w))) - 2 < day (clock E (clock_reads w)) ->
  (fetch_forecast E city_key w).1
  = Raise (ValueError "day is out of range for month").
Proof.
  intros Hc He Hcache (_ & _ & Hday & _) Hlate.
  destruct (fetch_forecast_paths E city_key c w Hc) as (_ & _ & Hfall).
  rewrite (Hfall e) by (by rewrite He || done). by apply fallback_late.
Qed.

(** ** The driver *)

(** The [try] body returns exactly when the city's video was made, and
    then hands on [generated] with the video's path appended. *)
Lemma process_city_video E generated city_key w g w' :
  process_city E generated city_key w = (Ok g, w')
  <-> g = generated ++ [ join (OUTPUT_DIR E) (output_name city_key) ] /\
      produces_video E city_key w w'.
Proof.
  unfold process_city, produces_video. split.
  - intros H.
    apply bind_ok_inv in H as ([] & w0 & Hp & H).
    apply bind_ok_inv in H as (forecast & w1 & Hf & H).
    apply bind_ok_inv in H as (nearby & w2 & Hn & H).
    apply bind_ok_inv in H as (path & w3 & Hv & H).
    rewrite ret_run in H. injection H as <- <-.
    pose proof (generate_video_outcomes _ _ _ _ _ _ _ Hv) as [Hpath _].
    subst path. split; [done|]. exists forecast, nearby, w1, w2.
    rewrite Hp. done.
  - intros (-> & forecast & nearby & w1 & w2 & Hf & Hn & Hv).
    rewrite bind_run.
    destruct (print (nl +:+ "--- Processing " +:+ upper city_key +:+ " ---") w)
      as [[[]|e] w0] eqn:Hp; [|discriminate].
    cbn [snd] in Hf.
    rewrite bind_run, Hf, bind_run, Hn, bind_run, Hv, ret_run. done.
Qed.

Lemma process_city_made E generated city_key w :
  is_ok (process_city E generated city_key w).1 = true
  <-> produces_video E city_key w (process_city E generated city_key w).2.
Proof.
  destruct (process_city E generated city_key w) as [[g|e] w'] eqn:Hrun;
    cbn [fst snd is_ok].
  - split; [|done]. intros _. by apply process_city_video in Hrun as [_ ?].
  - split; [done|]. intros Hv.
    assert (Hok : process_city E generated city_key w
                  = (Ok (generated
                         ++ [ join (OUTPUT_DIR E) (output_name city_key) ]),
                     w'))
      by (by apply process_city_video).
    congruence.
Qed.

Lemma city_loop_step E city_key rest generated w :
  city_loop E (city_key :: rest) generated w
  = let a := after_city E generated city_key
               (process_city E generated city_key w) in
    city_loop E rest a.1 a.2.
Proof.
  cbn [city_loop]. rewrite bind_run. unfold try_except, after_city.
  destruct (process_city E generated city_key w) as [[g|e] w1]; [done|].
  reflexivity.
Qed.

Lemma report_failure_logs E generated city_key e w :
  stdout (report_failure E generated city_key e w).2
  = stdout w ++ [ "✗ Failed to generate " +:+ city_key +:+ ": "
                  +:+ exn_str (signal_name E) e ]
  /\ stderr (report_failure E generated city_key e w).2
  = stderr w ++ [ "Traceback: " +:+ exn_str (signal_name E) e ].
Proof. split; reflexivity. Qed.


Lemma quiet_ret {A} (a : A) (Q : A -> Prop) : Q a -> quiet (mret a : M A) Q.
Proof. intros HQ w. by exists a, w. Qed.

Lemma quiet_print s : quiet (print s) (fun _ => True).
Proof.
  intros w. eexists _, _. split; [reflexivity|]. cbn.
  repeat split. by apply prefix_app_r.
Qed.

Lemma quiet_time_time E : quiet (time_time E) (fun _ => True).
Proof. intros w. eexists _, _. split; [reflexivity|]. by cbn. Qed.

Lemma quiet_datetime_now E : quiet (datetime_now E) (fun _ => True).
Proof. intros w. eexists _, _. split; [reflexivity|]. by cbn. Qed.

Lemma quiet_bind {A B} (m : M A) (k : A -> M B) Q R :
  quiet m Q -> (forall a, Q a -> quiet (k a) R) -> quiet (m ≫= k) R.
Proof.
  intros Hm Hk w. rewrite bind_run.
  destruct (Hm w) as (a & w1 & -> & HQ & Hfs1 & Herr1 & Hout1).
  destruct (Hk a HQ w1) as (b & w2 & -> & HR & Hfs2 & Herr2 & Hout2).
  exists b, w2. repeat split; [done | congruence | congruence | by etrans].
Qed.

Lemma quiet_for_each {A B} (l : list A) (body : A -> M B) :
  (forall a, quiet (body a) (fun _ => True)) ->
  quiet (for_each l body) (fun _ => True).
Proof.
  intros Hbody. induction l as [|a l IH]; cbn [for_each].
  - by apply quiet_ret.
  - eapply quiet_bind; [done|]. intros b _.
    eapply quiet_bind; [done|]. intros bs _. by apply quiet_ret.
Qed.

Ltac quiet_steps :=
  repeat (eapply quiet_bind;
          [ first [ apply quiet_print | apply quiet_time_time
                  | apply quiet_datetime_now
                  | apply quiet_for_each; intros ?; apply quiet_print ]
          | intros ? _ ]).

Lemma quiet_announce E : quiet (announce E) (fun _ => True).
Proof. unfold announce. quiet_steps. by apply quiet_ret. Qed.

Lemma quiet_summarize E start generated :
  quiet (summarize E start generated)
    (fun b => b = bool_decide (length generated = length cities)).
Proof. unfold summarize. quiet_steps. by apply quiet_ret. Qed.

Lemma city_loop_cities E w :
  let ra := process_city E [] "austin" w in
  let sa := after_city E [] "austin" ra in
  let rl := process_city E sa.1 "london" sa.2 in
  let sl := after_city E sa.1 "london" rl in
  city_loop E cities [] w = (Ok sl.1, sl.2) /\
  sl.1 = videos_of E "austin" ra.1 ++ videos_of E "london" rl.1 /\
  bool_decide (length sl.1 = length cities) = is_ok ra.1 && is_ok rl.1.
Proof.
  cbv zeta. unfold cities. rewrite !city_loop_step. cbv zeta.
  split; [reflexivity|].
  destruct (process_city E [] "austin" w) as [[g1|e1] w1] eqn:Ha;
    cbn [after_city fst snd is_ok andb videos_of].
  - apply process_city_video in Ha as [-> _].
    destruct (process_city E _ "london" w1) as [[g2|e2] w2] eqn:Hl;
      cbn [after_city fst snd is_ok videos_of].
    + apply process_city_video in Hl as [-> _]. done.
    + done.
  - destruct (process_city E [] "london" _) as [[g2|e2] w2] eqn:Hl;
      cbn [after_city fst snd is_ok videos_of].
    + apply process_city_video in Hl as [-> _]. done.
    + done.
Qed.

(** C7: the loop runs austin and then london, london in the world that
    austin's turn left behind, whether or not that turn raised.  An
    exception of either turn is caught and reported: a line with
    [str(e)] on stdout and the traceback on stderr.  A turn ends without
    an exception exactly when the city's video was made: its forecast
    and its neighbours were fetched and [generate_video] returned the
    path of the city's video.  The run itself never raises; it lists the
    videos made, returns [True] exactly when both were made, and exits
    with status 0 exactly then. *)
Theorem generate_all_videos_isolates_cities (E : Env) (w : World) :
  let w0 := (announce E w).2 in
  let ra := process_city E [] "austin" w0 in
  let sa := after_city E [] "austin" ra in
  let rl := process_city E sa.1 "london" sa.2 in
  let sl := after_city E sa.1 "london" rl in
  let success := is_ok ra.1 && is_ok rl.1 in
  (exists wend,
     generate_all_videos E w = (Ok success, wend) /\
     main E w = (Ok (if success then 0 else 1), wend) /\
     fs wend = fs sl.2 /\ stderr wend = stderr sl.2 /\
     (stdout sl.2 `prefix_of` stdout wend)) /\
  (forall e, ra.1 = Raise e ->
     stdout sa.2 = stdout ra.2
       ++ [ "✗ Failed to generate austin: " +:+ exn_str (signal_name E) e ] /\
     stderr sa.2 = stderr ra.2
       ++ [ "Traceback: " +:+ exn_str (signal_name E) e ]) /\
  (forall e, rl.1 = Raise e ->
     stdout sl.2 = stdout rl.2
       ++ [ "✗ Failed to generate london: " +:+ exn_str (signal_name E) e ] /\
     stderr sl.2 = stderr rl.2
       ++ [ "Traceback: " +:+ exn_str (signal_name E) e ]) /\
  (is_ok ra.1 = true <-> produces_video E "austin" w0 ra.2) /\
  (is_ok rl.1 = true <-> produces_video E "london" sa.2 rl.2) /\
  sl.1 = videos_of E "austin" ra.1 ++ videos_of E "london" rl.1 /\
  (success = true <->
   produces_video E "austin" w0 ra.2 /\
   produces_video E "london" sa.2 rl.2).
Proof.
  cbv zeta. split; [|split; [|split; [|split; [|split; [|split]]]]].
  - destruct (quiet_announce E w) as (start & w0 & Hann & _ & _).
    rewrite Hann. cbn [snd].
    destruct (city_loop_cities E w0) as (Hloop & _ & Hlen).
    cbv zeta in Hloop, Hlen.
    match type of Hloop with _ = (Ok ?g, ?w1) =>
      destruct (quiet_summarize E start g w1)
        as (b & wend & Hsum & -> & Hfs & Herr & Hout);
      assert (Hrun : generate_all_videos E w = summarize E start g w1)
        by (unfold generate_all_videos;
            rewrite bind_run, Hann, bind_run, Hloop; reflexivity)
    end.
    rewrite Hsum, Hlen in Hrun.
    exists wend. split; [exact Hrun|]. split; [|done].
    unfold main. rewrite bind_run, Hrun. reflexivity.
  - intros e He. destruct (process_city E [] "austin" _) as [[g|e'] w1];
      cbn in He; [discriminate|]. injection He as ->.
    cbn [after_city fst snd]. apply report_failure_logs.
  - intros e He.
    destruct (process_city E _ "london" _) as [[g|e'] w1];
      cbn in He; [discriminate|]. injection He as ->.
    cbn [after_city fst snd]. apply report_failure_logs.
  - apply process_city_made.
  - apply process_city_made.
  - by destruct (city_loop_cities E (announce E w).2) as (_ & Hvideos & _).
  - rewrite andb_true_iff. by rewrite !process_city_made.
Qed.

Lemma generate_all_videos_isolates_cities_witness :
  let E := offline jan10 failing_encoder in
  let ra := process_city E [] "austin" (announce E empty_world).2 in
  stdout (after_city E [] "austin" ra).2
  = stdout ra.2
    ++ [ "✗ Failed to generate austin: Command '['ffmpeg', '-y', '-f', "
         +:+ "'concat', '-safe', '0', '-i', "
         +:+ "'/app/output/temp_austin/concat.txt', '-vf', "
         +:+ "'fps=30,format=yuv420p', '-c:v', 'libx264', '-preset', "
         +:+ "'medium', '-crf', '23', '/app/output/ATXweather.mp4']' "
         +:+ "returned non-zero exit status 1." ].
Proof.
  destruct (generate_all_videos_isolates_cities
              (offline jan10 failing_encoder) empty_world) as (_ & Ha & _).
  apply (Ha (CalledProcessError 1
               (ffmpeg_cmd "/app/output/temp_austin/concat.txt"
                  "/app/output/ATXweather.mp4")
               "Unknown encoder 'libx264'")).
  vm_compute. reflexivity.
Defined.
